(** * SRCF: the repository-creator bot (bot.py) and the content-relay bot (main.py)

    A shallow embedding of the two Pyrogram bots.  Each handler is a
    computation in a small state-and-exception monad:

    - the document store (the MongoDB collections) is explicit state;
    - every awaited call to the messaging platform or to the hosting
      platform is recorded in a trace and answered by a [world], so that a
      handler can be run against any behaviour of its collaborators;
    - Python exceptions are values carrying their class, and [try_except]
      picks the first clause whose class the exception is an instance of,
      as Python does.

    Logging calls are left out: they touch neither the store nor the
    platforms. *)

From Stdlib Require Import ZArith String Ascii List Bool Lia.
From stdpp Require Import base option gmap strings list fin_maps pretty.

Open Scope Z_scope.
Open Scope string_scope.

(** ** Python strings

    A [str] is modelled as a Rocq [string]; the functions below follow
    the Python ones on ASCII text. *)

Module Py.

Definition code (a : ascii) : N := N_of_ascii a.


(** The characters [str.strip()] and [int()] treat as blanks: tab, line
    feed, vertical tab, form feed, carriage return, the four separators
    0x1c-0x1f and the space. *)
Definition isspace (a : ascii) : bool :=
  let n := code a in
  ((9 <=? n) && (n <=? 13) || (28 <=? n) && (n <=? 32))%N.

Fixpoint lstrip_by (p : ascii -> bool) (l : list ascii) : list ascii :=
  match l with
  | [] => []
  | a :: l' => if p a then lstrip_by p l' else l
  end.

Definition strip_by (p : ascii -> bool) (s : string) : string :=
  string_of_list_ascii
    (rev (lstrip_by p (rev (lstrip_by p (list_ascii_of_string s))))).

(** [s.strip()] *)
Definition strip (s : string) : string := strip_by isspace s.

(** [s.strip(chars)] *)
Definition strip_chars (chars : string) (s : string) : string :=
  strip_by (fun a => existsb (Ascii.eqb a) (list_ascii_of_string chars)) s.

Definition lower_ascii (a : ascii) : ascii :=
  let n := code a in
  if ((65 <=? n) && (n <=? 90))%N then ascii_of_N (n + 32) else a.

(** [s.lower()] *)
Fixpoint lower (s : string) : string :=
  match s with
  | EmptyString => EmptyString
  | String a s' => String (lower_ascii a) (lower s')
  end.

Fixpoint split_from (sep : ascii) (cur : list ascii) (l : list ascii)
  : list string :=
  match l with
  | [] => [string_of_list_ascii (rev cur)]
  | a :: l' =>
      if Ascii.eqb a sep
      then string_of_list_ascii (rev cur) :: split_from sep [] l'
      else split_from sep (a :: cur) l'
  end.

(** [s.split(sep)] for a separator of one character; the result is never
    empty. *)
Definition split (sep : ascii) (s : string) : list string :=
  split_from sep [] (list_ascii_of_string s).

(** [needle in hay] *)
Fixpoint contains (needle hay : string) : bool :=
  String.prefix needle hay
  || match hay with
     | EmptyString => false
     | String _ hay' => contains needle hay'
     end.

Definition isdigit (a : ascii) : bool :=
  let n := code a in ((48 <=? n) && (n <=? 57))%N.

Definition digit (a : ascii) : Z := Z.of_N (code a) - 48.

(** Digits in which single underscores may sit between two digits. *)
Fixpoint digits (acc : Z) (after_digit : bool) (l : list ascii) : option Z :=
  match l with
  | [] => if after_digit then Some acc else None
  | a :: l' =>
      if isdigit a then digits (10 * acc + digit a) true l'
      else if Ascii.eqb a "_" then
        if after_digit then digits acc false l' else None
      else None
  end.

(** [int(s)]: blanks around, an optional sign, decimal digits.  [None]
    stands for the [ValueError] Python raises. *)
Definition int (s : string) : option Z :=
  match list_ascii_of_string (strip s) with
  | a :: l =>
      if Ascii.eqb a "-" then Z.opp <$> digits 0 false l
      else if Ascii.eqb a "+" then digits 0 false l
      else digits 0 false (a :: l)
  | [] => None
  end.

(** [urlparse(link).path] of the standard library, for links free of
    blanks, of semicolons and of square brackets, where the library
    neither cuts parameters from the last segment nor raises: an optional
    scheme up to the first colon, an optional [//netloc], then the path
    up to the first [?] or [#].  The handlers take the parser as a
    parameter; this one serves the sample links. *)
Definition isalpha (a : ascii) : bool :=
  let n := code a in
  ((65 <=? n) && (n <=? 90) || (97 <=? n) && (n <=? 122))%N.

Definition scheme_char (a : ascii) : bool :=
  isalpha a || isdigit a
  || existsb (Ascii.eqb a) (list_ascii_of_string "+-.").

Fixpoint after_scheme (l : list ascii) : option (list ascii) :=
  match l with
  | [] => None
  | a :: l' =>
      if Ascii.eqb a ":" then Some l'
      else if scheme_char a then after_scheme l' else None
  end.

Definition drop_scheme (l : list ascii) : list ascii :=
  match l with
  | a :: l' =>
      if isalpha a then
        match after_scheme l' with Some rest => rest | None => l end
      else l
  | [] => []
  end.

Fixpoint until (p : ascii -> bool) (l : list ascii) : list ascii :=
  match l with
  | [] => []
  | a :: l' => if p a then [] else a :: until p l'
  end.

Fixpoint from (p : ascii -> bool) (l : list ascii) : list ascii :=
  match l with
  | [] => []
  | a :: l' => if p a then l else from p l'
  end.

Definition one_of (chars : string) (a : ascii) : bool :=
  existsb (Ascii.eqb a) (list_ascii_of_string chars).

Definition drop_netloc (l : list ascii) : list ascii :=
  match l with
  | a :: b :: l' =>
      if Ascii.eqb a "/" && Ascii.eqb b "/" then from (one_of "/?#") l' else l
  | _ => l
  end.

Definition urlparse_path (link : string) : string :=
  string_of_list_ascii
    (until (one_of "?#") (drop_netloc (drop_scheme (list_ascii_of_string link)))).

End Py.

(** ** Documents and collections *)

(** The values the bots keep in a document field. *)
Inductive value :=
| VNone
| VStr (s : string)
| VInt (z : Z).

#[global] Instance value_eq_dec : EqDecision value.
Proof. solve_decision. Defined.

(** Python truthiness of a stored value. *)
Definition truthy (v : value) : bool :=
  match v with
  | VNone => false
  | VStr s => negb (String.eqb s EmptyString)
  | VInt z => negb (z =? 0)%Z
  end.

(** [str(v)] *)
Definition str_of_value (v : value) : string :=
  match v with
  | VNone => "None"
  | VStr s => s
  | VInt z => pretty z
  end.

(** A document is a dictionary from field names to values; a collection
    is looked up by the [user_id] of its documents only, so it is a map
    from that identifier to the document. *)
Abbreviation doc := (gmap string value).
Abbreviation collection := (gmap Z (gmap string value)).

Definition set_fields (fields : list (string * value)) (d : doc) : doc :=
  foldl (fun d kv => <[kv.1 := kv.2]> d) d fields.

Definition unset_fields (names : list string) (d : doc) : doc :=
  foldl (fun d k => delete k d) d names.

(** [c.update_one({"user_id": u}, {"$set": fields}, upsert=upsert)] *)
Definition update_one_set (u : Z) (fields : list (string * value))
    (upsert : bool) (c : collection) : collection :=
  match c !! u with
  | Some d => <[u := set_fields fields d]> c
  | None =>
      if upsert
      then <[u := set_fields fields {["user_id" := VInt u]}]> c
      else c
  end.

(** [c.update_one({"user_id": u}, {"$unset": names})] *)
Definition update_one_unset (u : Z) (names : list string) (c : collection)
  : collection :=
  match c !! u with
  | Some d => <[u := unset_fields names d]> c
  | None => c
  end.

(** ** Exceptions *)

Inductive exn_class :=
| Exception
| ValueError
| KeyError
| IndexError
| TypeError
| AttributeError
| RPCError
| FloodWait
| SessionPasswordNeeded
| PhoneCodeInvalid
| PhoneNumberInvalid
| GithubException.

#[global] Instance exn_class_eq_dec : EqDecision exn_class.
Proof. solve_decision. Defined.

(** The class each one derives from.  Pyrogram's errors all derive from
    [RPCError] (FloodWait through Flood, the phone errors through
    BadRequest, SessionPasswordNeeded through Unauthorized); everything
    else used here derives from [Exception]. *)
Definition base (c : exn_class) : option exn_class :=
  match c with
  | Exception => None
  | FloodWait | SessionPasswordNeeded | PhoneCodeInvalid
  | PhoneNumberInvalid => Some RPCError
  | _ => Some Exception
  end.

Fixpoint subclass_upto (n : nat) (c d : exn_class) : bool :=
  bool_decide (c = d)
  || match n with
     | O => false
     | S n' => match base c with
               | Some b => subclass_upto n' b d
               | None => false
               end
     end.

Definition issubclass (c d : exn_class) : bool := subclass_upto 2 c d.

(** An exception object: its class, [str(e)] and, for FloodWait, the
    seconds to wait in [e.value]. *)
Record exn := { cls : exn_class; str : string; wait : Z }.

Definition isinstance (e : exn) (c : exn_class) : bool :=
  issubclass (cls e) c.

Definition key_error (k : string) : exn :=
  {| cls := KeyError; str := "'" +:+ k +:+ "'"; wait := 0 |}.

Definition none_not_subscriptable : exn :=
  {| cls := TypeError; str := "'NoneType' object is not subscriptable";
     wait := 0 |}.

Definition none_has_no_strip : exn :=
  {| cls := AttributeError;
     str := "'NoneType' object has no attribute 'strip'"; wait := 0 |}.

Definition index_error : exn :=
  {| cls := IndexError; str := "list index out of range"; wait := 0 |}.

Definition value_error (s : string) : exn :=
  {| cls := ValueError; str := s; wait := 0 |}.

(** ** Calls to the collaborators *)

Inductive chat_ref :=
| ChatId (z : Z)
| ChatName (s : string).

(** One constructor per awaited operation.  A keyboard is the list of its
    buttons, each a label and the callback data it sends. *)
Inductive call :=
| ReplyText (chat : Z) (text : string) (keyboard : list (string * string))
| QueryAnswer (text : string)
| ClientStart (phone : string)
| SendCode (phone : string)
| SignIn (phone phone_code_hash : value) (code : string)
| CheckPassword (password : string)
| ExportSessionString
| ClientStop
| GetUserLogin (token : string)
| CreateRepo (token name description : value) (private auto_init : bool)
| CopyMessage (chat : Z) (from_chat : chat_ref) (message_id : Z)
| Sleep (seconds : Z).

#[global] Instance chat_ref_eq_dec : EqDecision chat_ref.
Proof. solve_decision. Defined.

#[global] Instance call_eq_dec : EqDecision call.
Proof. solve_decision. Defined.

(** What a collaborator answers: a result (a string, ignored where the
    operation returns nothing of use) or an exception. *)
Inductive answer :=
| Ok (s : string)
| Fails (e : exn).

(** The world answers the [n]-th call of a handler run. *)
Definition world := nat -> call -> answer.

(** ** The handler monad *)

Inductive res (A : Type) :=
| Ret (a : A)
| Raise (e : exn)
| OutOfFuel.
Arguments Ret {A} a.
Arguments Raise {A} e.
Arguments OutOfFuel {A}.

Section Handler.
Context {D : Type}.

Record state := { store : D; trace : list call }.

Definition M (A : Type) := world -> state -> res A * state.

Definition ret {A} (a : A) : M A := fun _ s => (Ret a, s).

Definition raise {A} (e : exn) : M A := fun _ s => (Raise e, s).

Definition out_of_fuel {A} : M A := fun _ s => (OutOfFuel, s).

Definition bind {A B} (m : M A) (k : A -> M B) : M B :=
  fun w s =>
    match m w s with
    | (Ret a, s') => k a w s'
    | (Raise e, s') => (Raise e, s')
    | (OutOfFuel, s') => (OutOfFuel, s')
    end.

Definition get_store : M D := fun _ s => (Ret (store s), s).

Definition modify (f : D -> D) : M unit :=
  fun _ s => (Ret tt, {| store := f (store s); trace := trace s |}).

(** An awaited call: recorded, then answered by the world. *)
Definition perform (c : call) : M string :=
  fun w s =>
    let s' := {| store := store s; trace := trace s ++ [c] |} in
    match w (length (trace s)) c with
    | Ok r => (Ret r, s')
    | Fails e => (Raise e, s')
    end.

Fixpoint find_clause {A} (e : exn) (clauses : list (exn_class * (exn -> M A)))
  : option (M A) :=
  match clauses with
  | [] => None
  | (c, h) :: rest => if isinstance e c then Some (h e) else find_clause e rest
  end.

(** [try: body  except c1 as e: h1  except c2 as e: h2 ...] *)
Definition try_except {A} (body : M A)
    (clauses : list (exn_class * (exn -> M A))) : M A :=
  fun w s =>
    match body w s with
    | (Raise e, s') =>
        match find_clause e clauses with
        | Some h => h w s'
        | None => (Raise e, s')
        end
    | r => r
    end.

(** [d[k]] *)
Definition getitem (d : doc) (k : string) : M value :=
  match d !! k with
  | Some v => ret v
  | None => raise (key_error k)
  end.

(** [d[k]] where [d] may be [None] *)
Definition getitem_opt (d : option doc) (k : string) : M value :=
  match d with
  | Some d => getitem d k
  | None => raise none_not_subscriptable
  end.

Definition run {A} (m : M A) (w : world) (db : D) : res A * state :=
  m w {| store := db; trace := [] |}.

(** A computation stays within [P]: from a trace of calls that all
    satisfy [P] it makes only calls that satisfy [P], and it never runs
    out of fuel. *)
Definition within (P : call -> Prop) {A} (m : M A) : Prop :=
  forall w s,
    Forall P (trace s) ->
    (m w s).1 <> OutOfFuel /\ Forall P (trace (m w s).2).
End Handler.

Definition not_sleep (c : call) : Prop :=
  match c with
  | Sleep _ => False
  | _ => True
  end.

Arguments state : clear implicits.
Arguments M : clear implicits.

Notation "'let*' x ':=' m 'in' k" := (bind m (fun x => k))
  (at level 10, x pattern, m at level 100, k at level 200).
Notation "m ';;' k" := (bind m (fun _ => k))
  (at level 100, k at level 200, right associativity).

(** ** Messages and button presses *)

Record Message := {
  from_user : Z;
  chat : Z;
  text : option string;
  command : list string
}.

Record CallbackQuery := {
  q_from_user : Z;
  q_data : string;
  q_message : Message
}.

Section Messaging.
Context {D : Type}.

(** [message.reply_text(text, reply_markup=keyboard)] *)
Definition reply_text (message : Message) (text : string)
    (keyboard : list (string * string)) : M D unit :=
  perform (ReplyText (chat message) text keyboard) ;; ret tt.

(** [message.text.strip()] *)
Definition text_strip (message : Message) : M D string :=
  match text message with
  | Some t => ret (Py.strip t)
  | None => raise none_has_no_strip
  end.
End Messaging.

(** ** bot.py: the repository-creator bot

    Each handler is modelled on its own, on the message or button press it
    is given; which handler Pyrogram hands an update to is the
    framework's business.  A document found in a collection is truthy: a
    stored document always carries its [_id]. *)

Module Bot.

Record DB := {
  users_collection : collection;
  sessions_collection : collection;
  github_tokens_collection : collection
}.

Definition on_users (f : collection -> collection) (db : DB) : DB :=
  {| users_collection := f (users_collection db);
     sessions_collection := sessions_collection db;
     github_tokens_collection := github_tokens_collection db |}.

Definition on_sessions (f : collection -> collection) (db : DB) : DB :=
  {| users_collection := users_collection db;
     sessions_collection := f (sessions_collection db);
     github_tokens_collection := github_tokens_collection db |}.

Definition on_github_tokens (f : collection -> collection) (db : DB) : DB :=
  {| users_collection := users_collection db;
     sessions_collection := sessions_collection db;
     github_tokens_collection := f (github_tokens_collection db) |}.

Definition get_user_session (user_id : Z) : M DB value :=
  let* db := get_store in
  match sessions_collection db !! user_id with
  | Some session_doc => getitem session_doc "string_session"
  | None => ret VNone
  end.

Definition save_user_session (user_id : Z) (string_session : string)
  : M DB unit :=
  modify (on_sessions
    (update_one_set user_id [("string_session", VStr string_session)] true)).

Definition get_github_token (user_id : Z) : M DB value :=
  let* db := get_store in
  match github_tokens_collection db !! user_id with
  | Some token_doc => getitem token_doc "token"
  | None => ret VNone
  end.

Definition save_github_token (user_id : Z) (token : string) : M DB unit :=
  modify (on_github_tokens
    (update_one_set user_id [("token", VStr token)] true)).

Definition nl : string := String "010" EmptyString.

Section WithAdmins.
Variable ADMIN_IDS : list Z.

Definition is_admin (user_id : Z) : bool :=
  bool_decide (user_id ∈ ADMIN_IDS).

Definition start (message : Message) : M DB unit :=
  let user_id := from_user message in
  modify (on_users (update_one_set user_id [("user_id", VInt user_id)] true)) ;;
  reply_text message
    ("🌟 **Welcome to GitHub Repo Creator Bot!** 🌟" +:+ nl +:+ nl +:+
     "This bot helps you create GitHub repositories using your Telegram account." +:+ nl +:+
     "1. Log in with Telegram to authenticate." +:+ nl +:+
     "2. Provide a GitHub token to create repos." +:+ nl +:+
     "Start by logging in! 🚀")
    [("🔑 Telegram Login", "telegram_login");
     ("🔐 GitHub Login", "github_login");
     ("📋 Help", "help");
     (if is_admin user_id then "👤 Admin Panel" else "ℹ️ About",
      if is_admin user_id then "admin" else "about")].

Definition handle_telegram_login_start (message : Message) : M DB unit :=
  let user_id := from_user message in
  let* session := get_user_session user_id in
  if truthy session then
    reply_text message "You are already logged in to Telegram. Re-login?"
      [("🔄 Re-Login", "telegram_relogin_confirm"); ("🔙 Back", "start")]
  else
    reply_text message
      ("🔑 **Telegram Login Process:**" +:+ nl +:+ nl +:+
       "1. Send your phone number (e.g., +1234567890)." +:+ nl +:+
       "2. Receive a code on Telegram." +:+ nl +:+
       "3. Reply with the code." +:+ nl +:+
       "4. If 2FA is enabled, provide your password.") [] ;;
    modify (on_users
      (update_one_set user_id [("login_step", VStr "phone")] true)).

Definition handle_github_login_start (message : Message) : M DB unit :=
  let user_id := from_user message in
  let* token := get_github_token user_id in
  if truthy token then
    reply_text message "You are already logged in to GitHub. Re-login?"
      [("🔄 Re-Login GitHub", "github_relogin_confirm"); ("🔙 Back", "start")]
  else
    reply_text message
      ("🔐 **GitHub Login Process:**" +:+ nl +:+ nl +:+
       "1. Send your GitHub Personal Access Token." +:+ nl +:+
       "   - Get it from github.com > Settings > Developer settings > Personal access tokens." +:+ nl +:+
       "   - Ensure it has 'repo' scope.") [] ;;
    modify (on_users
      (update_one_set user_id [("login_step", VStr "github_token")] true)).

Definition help_text : string :=
  "📚 **Detailed Help Guide** 📚" +:+ nl +:+ nl +:+
  "This bot creates GitHub repositories using your Telegram and GitHub accounts." +:+ nl +:+ nl +:+
  "**User Features:**" +:+ nl +:+
  "1. **/start**: Welcome menu with login and help options." +:+ nl +:+
  "2. **Telegram Login**: Authenticate with your Telegram account (required)." +:+ nl +:+
  "3. **GitHub Login**: Provide a GitHub token with 'repo' scope." +:+ nl +:+
  "4. **/create**: Create a GitHub repository." +:+ nl +:+
  "   - Specify repo name, description, and private/public status." +:+ nl +:+
  "   - Example: Use /create to start the process." +:+ nl +:+
  "5. **FloodWait**: Auto-handles Telegram rate limits to prevent bans." +:+ nl +:+ nl +:+
  "**Admin Features:** (/admin)" +:+ nl +:+
  "1. List all users." +:+ nl +:+
  "2. Ban/unban users." +:+ nl +:+
  "3. Broadcast messages to all users." +:+ nl +:+ nl +:+
  "**Tips:**" +:+ nl +:+
  "- Ensure your GitHub token has 'repo' scope." +:+ nl +:+
  "- Keep your token secure; don’t share it." +:+ nl +:+
  "- For issues, contact admin." +:+ nl +:+
  "- Deploy on Render/Heroku for easy hosting.".

Definition send_help (message : Message) : M DB unit :=
  reply_text message help_text [].

Definition help_command (message : Message) : M DB unit :=
  send_help message.

Definition send_admin_panel (message : Message) : M DB unit :=
  reply_text message ("👤 **Admin Panel** 👤" +:+ nl +:+ "Choose an option:")
    [("📊 List Users", "admin_list_users");
     ("🚫 Ban User", "admin_ban");
     ("✅ Unban User", "admin_unban");
     ("📢 Broadcast", "admin_broadcast");
     ("🔙 Back", "start")].

Definition admin_command (message : Message) : M DB unit :=
  if negb (is_admin (from_user message)) then
    reply_text message "❌ You are not an admin." []
  else send_admin_panel message.
End WithAdmins.

Definition login_steps (message : Message) : M DB unit :=
  let user_id := from_user message in
  let* db := get_store in
  match users_collection db !! user_id with
  | None => ret tt
  | Some user_doc =>
    match user_doc !! "login_step" with
    | None => ret tt
    | Some step =>
      if bool_decide (step = VStr "phone") then
        let* phone := text_strip message in
        try_except
          (perform (ClientStart phone) ;;
           let* phone_code_hash := perform (SendCode phone) in
           modify (on_users (update_one_set user_id
             [("login_step", VStr "code"); ("phone", VStr phone);
              ("phone_code_hash", VStr phone_code_hash)] false)) ;;
           reply_text message "📩 Code sent to your Telegram. Reply with the code." [])
          [(PhoneNumberInvalid, fun e =>
              reply_text message "❌ Invalid phone number. Try again." []);
           (Exception, fun e =>
              reply_text message ("❌ Error: " +:+ str e) [])]
      else if bool_decide (step = VStr "code") then
        let* code := text_strip message in
        let* phone := getitem user_doc "phone" in
        let* phone_code_hash := getitem user_doc "phone_code_hash" in
        try_except
          (perform (SignIn phone phone_code_hash code) ;;
           let* string_session := perform ExportSessionString in
           save_user_session user_id string_session ;;
           perform ClientStop ;;
           modify (on_users (update_one_unset user_id
             ["login_step"; "phone"; "phone_code_hash"])) ;;
           reply_text message
             "✅ Telegram login successful! Now use GitHub login or /create." [])
          [(SessionPasswordNeeded, fun e =>
              modify (on_users (update_one_set user_id
                [("login_step", VStr "password")] false)) ;;
              reply_text message "🔒 2FA enabled. Send your password." []);
           (PhoneCodeInvalid, fun e =>
              reply_text message "❌ Invalid code. Try again." []);
           (Exception, fun e =>
              reply_text message ("❌ Error: " +:+ str e) [])]
      else if bool_decide (step = VStr "password") then
        let* password := text_strip message in
        let* phone := getitem user_doc "phone" in
        try_except
          (perform (CheckPassword password) ;;
           let* string_session := perform ExportSessionString in
           save_user_session user_id string_session ;;
           perform ClientStop ;;
           modify (on_users (update_one_unset user_id
             ["login_step"; "phone"; "phone_code_hash"])) ;;
           reply_text message
             "✅ Telegram login successful! Now use GitHub login or /create." [])
          [(Exception, fun e =>
              reply_text message ("❌ Error: " +:+ str e) [])]
      else if bool_decide (step = VStr "github_token") then
        let* token := text_strip message in
        try_except
          (perform (GetUserLogin token) ;;
           save_github_token user_id token ;;
           modify (on_users (update_one_unset user_id ["login_step"])) ;;
           reply_text message
             "✅ GitHub login successful! Use /create to make a repository." [])
          [(GithubException, fun e =>
              reply_text message ("❌ Invalid GitHub token: " +:+ str e) []);
           (Exception, fun e =>
              reply_text message ("❌ Error: " +:+ str e) [])]
      else ret tt
    end
  end.

Definition create_command (message : Message) : M DB unit :=
  let user_id := from_user message in
  let* session := get_user_session user_id in
  if negb (truthy session) then
    reply_text message
      "❌ Please login to Telegram first using /start > Telegram Login." []
  else
    let* token := get_github_token user_id in
    if negb (truthy token) then
      reply_text message
        "❌ Please login to GitHub first using /start > GitHub Login." []
    else
      reply_text message "Ready to create a GitHub repository! Click below:"
        [("📁 Create Repository", "create_repo")].

Definition handle_create_repo_start (message : Message) : M DB unit :=
  let user_id := from_user message in
  modify (on_users (update_one_set user_id [("repo_step", VStr "name")] false)) ;;
  reply_text message
    ("📁 **Create Repository:**" +:+ nl +:+ nl +:+
     "Send the repository name (e.g., my-new-repo):") [].

Definition repo_steps (message : Message) : M DB unit :=
  let user_id := from_user message in
  let* db := get_store in
  match users_collection db !! user_id with
  | None => ret tt
  | Some user_doc =>
    match user_doc !! "repo_step" with
    | None => ret tt
    | Some step =>
      if bool_decide (step = VStr "name") then
        let* repo_name := text_strip message in
        modify (on_users (update_one_set user_id
          [("repo_name", VStr repo_name); ("repo_step", VStr "description")]
          false)) ;;
        reply_text message
          "Send the repository description (or 'None' to skip):" []
      else if bool_decide (step = VStr "description") then
        let* stripped := text_strip message in
        let description :=
          if negb (String.eqb (Py.lower stripped) "none")
          then VStr stripped else VNone in
        modify (on_users (update_one_set user_id
          [("repo_description", description); ("repo_step", VStr "visibility")]
          false)) ;;
        reply_text message "Choose repository visibility:"
          [("🌐 Public", "repo_public"); ("🔒 Private", "repo_private")]
      else ret tt
    end
  end.

Definition handle_repo_visibility (query : CallbackQuery) : M DB unit :=
  let user_id := q_from_user query in
  let data := q_data query in
  let* db := get_store in
  let user_doc := users_collection db !! user_id in
  let is_private := String.eqb data "repo_private" in
  let* repo_name := getitem_opt user_doc "repo_name" in
  let* description := getitem_opt user_doc "repo_description" in
  try_except
    (let* token := get_github_token user_id in
     let* html_url :=
       perform (CreateRepo token repo_name description is_private true) in
     modify (on_users (update_one_unset user_id
       ["repo_step"; "repo_name"; "repo_description"])) ;;
     reply_text (q_message query)
       ("✅ Repository created successfully!" +:+ nl +:+
        "Name: " +:+ str_of_value repo_name +:+ nl +:+
        "URL: " +:+ html_url +:+ nl +:+
        "Visibility: " +:+ (if is_private then "Private" else "Public")) [])
    [(GithubException, fun e =>
        reply_text (q_message query)
          ("❌ Failed to create repository: " +:+ str e) []);
     (Exception, fun e =>
        reply_text (q_message query) ("❌ Error: " +:+ str e) []);
     (FloodWait, fun e =>
        perform (Sleep (wait e)) ;;
        reply_text (q_message query)
          "⏳ Hit Telegram rate limit. Retrying after a pause..." [])].

Section Dispatch.
Variable ADMIN_IDS : list Z.

Definition callback_handler (query : CallbackQuery) : M DB unit :=
  let data := q_data query in
  let user_id := q_from_user query in
  if String.eqb data "telegram_login" then
    handle_telegram_login_start (q_message query)
  else if String.eqb data "github_login" then
    handle_github_login_start (q_message query)
  else if String.eqb data "help" then
    send_help (q_message query)
  else if String.eqb data "admin" then
    if is_admin ADMIN_IDS user_id then send_admin_panel (q_message query)
    else perform (QueryAnswer "You are not an admin!") ;; ret tt
  else if String.eqb data "about" then
    reply_text (q_message query)
      "This bot is built with ❤️ using Pyrogram, PyGitHub, and MongoDB." []
  else if String.eqb data "create_repo" then
    handle_create_repo_start (q_message query)
  else if existsb (String.eqb data) ["repo_public"; "repo_private"] then
    handle_repo_visibility query
  else ret tt.
End Dispatch.

(** *** Reading the store

    The notions the properties are stated with, in terms of the
    collections. *)

(** The values the two getters return, [None] where they raise. *)
Definition session_of (db : DB) (u : Z) : option value :=
  match sessions_collection db !! u with
  | Some d => d !! "string_session"
  | None => Some VNone
  end.

Definition token_of (db : DB) (u : Z) : option value :=
  match github_tokens_collection db !! u with
  | Some d => d !! "token"
  | None => Some VNone
  end.

(** The fields of a user's document, [None] when absent. *)
Definition field (db : DB) (u : Z) (k : string) : option value :=
  users_collection db !! u ≫= (.!! k).

(** The session token stored for a user. *)
Definition stored_session (db : DB) (u : Z) : option value :=
  sessions_collection db !! u ≫= (.!! "string_session").

(** The access token stored for a user. *)
Definition stored_github_token (db : DB) (u : Z) : option value :=
  github_tokens_collection db !! u ≫= (.!! "token").

(** LoginState is cleared: none of its three fields is left. *)
Definition login_state_cleared (db : DB) (u : Z) : Prop :=
  field db u "login_step" = None /\
  field db u "phone" = None /\
  field db u "phone_code_hash" = None.

(** RepoDraft is cleared: none of its three fields is left. *)
Definition repo_draft_cleared (db : DB) (u : Z) : Prop :=
  field db u "repo_step" = None /\
  field db u "repo_name" = None /\
  field db u "repo_description" = None.

(** The keyboards a run has sent offer a button with this callback data. *)
Definition offers (data : string) (tr : list call) : Prop :=
  exists chat text keyboard label,
    ReplyText chat text keyboard ∈ tr /\ (label, data) ∈ keyboard.

(** The reading under which a rejected creation would clear the draft:
    whenever the creation call is answered by a GithubException, the
    three RepoDraft fields are gone afterwards. *)
Definition rejection_clears_draft : Prop :=
  forall (w : world) (db : DB) (query : CallbackQuery) (d : doc)
         (name description token : value) (e : exn),
    users_collection db !! q_from_user query = Some d ->
    d !! "repo_step" = Some (VStr "visibility") ->
    d !! "repo_name" = Some name ->
    d !! "repo_description" = Some description ->
    token_of db (q_from_user query) = Some token ->
    w 0%nat (CreateRepo token name description
               (String.eqb (q_data query) "repo_private") true) = Fails e ->
    cls e = GithubException ->
    repo_draft_cleared (store (run (handle_repo_visibility query) w db).2)
      (q_from_user query).


End Bot.

(** ** main.py: the content-relay bot *)

Module Relay.

(** The one collection of this bot, [users_collection]. *)
Abbreviation DB := (gmap Z (gmap string value)).

Definition is_logged_in (users_collection : DB) (user_id : Z) : bool :=
  match users_collection !! user_id with
  | Some user => bool_decide (user !! "status" = Some (VStr "active"))
  | None => false
  end.

Definition add_user (user_id : Z) : M DB unit :=
  modify (update_one_set user_id [("status", VStr "active")] true).

Definition ban_user (user_id : Z) : M DB unit :=
  modify (update_one_set user_id [("status", VStr "banned")] false).

Definition unban_user (user_id : Z) : M DB unit :=
  modify (update_one_set user_id [("status", VStr "active")] false).

Definition start (message : Message) : M DB unit :=
  reply_text message
    "Welcome! Use /login <password> to access features. Then send a message link to save restricted content."
    [].

(** [l[i]] *)
Definition getindex (l : list string) (i : nat) : M DB string :=
  match l !! i with
  | Some x => ret x
  | None => raise index_error
  end.

(** [int(s)] *)
Definition int_of (s : string) : M DB Z :=
  match Py.int s with
  | Some z => ret z
  | None =>
      raise (value_error
               ("invalid literal for int() with base 10: '" +:+ s +:+ "'"))
  end.

Section WithConfig.
Variable USER_PASSWORD : string.
(** [urlparse(link).path], or the [ValueError] the parser raises. *)
Variable urlparse_path : string -> answer.

Definition login (message : Message) : M DB unit :=
  match command message with
  | _ :: provided_pass :: _ =>
      if String.eqb provided_pass USER_PASSWORD then
        add_user (from_user message) ;;
        reply_text message "Logged in successfully! You can now use /save." []
      else reply_text message "Incorrect password." []
  | _ => reply_text message "Usage: /login <password>" []
  end.

(** The handler calls itself in its last clause; [fuel] bounds the depth
    of those calls. *)
Fixpoint save_content (fuel : nat) (message : Message) : M DB unit :=
  match fuel with
  | O => out_of_fuel
  | S fuel' =>
    let user_id := from_user message in
    let* users_collection := get_store in
    if negb (is_logged_in users_collection user_id) then
      reply_text message "Please /login first." []
    else
      match command message with
      | _ :: link :: _ =>
        try_except
          (let* path :=
             match urlparse_path link with
             | Ok p => ret p
             | Fails e => raise e
             end in
           let path_parts := Py.split "/" (Py.strip_chars "/" path) in
           (if (length path_parts <? 2)%nat
            then raise (value_error "Invalid link") else ret tt) ;;
           let* p0 := getindex path_parts 0 in
           let* source :=
             if String.eqb p0 "c" then
               let* p1 := getindex path_parts 1 in
               let* x := int_of p1 in
               let chat_id := -100 - x in
               let* p2 := getindex path_parts 2 in
               let* message_id := int_of p2 in
               ret (ChatId chat_id, message_id)
             else
               let chat_id := "@" +:+ p0 in
               let* p1 := getindex path_parts 1 in
               let* message_id := int_of p1 in
               ret (ChatName chat_id, message_id) in
           perform (CopyMessage (chat message) source.1 source.2) ;;
           reply_text message "Content saved and sent!" [])
          [(ValueError, fun e =>
              reply_text message "Invalid link format." []);
           (RPCError, fun e =>
              if Py.contains "CHAT_FORBIDDEN" (str e)
                 || Py.contains "CHAT_ADMIN_REQUIRED" (str e)
              then reply_text message
                     "Add me to the channel/group as a member to access." []
              else reply_text message
                     "Error fetching content. Check logs." []);
           (FloodWait, fun e =>
              perform (Sleep (wait e)) ;;
              save_content fuel' message)]
      | _ => reply_text message "Usage: /save <message_link>" []
      end
  end.
End WithConfig.

(** *** Reading the store *)

Definition status (users_collection : DB) (user_id : Z) : option value :=
  users_collection !! user_id ≫= (.!! "status").


End Relay.

(** ** Sample stores, messages and worlds *)

Module Sample.
Import Bot.

Definition sample_draft : doc :=
  {[ "user_id" := VInt 42;
     "repo_step" := VStr "visibility";
     "repo_name" := VStr "my-new-repo";
     "repo_description" := VNone ]}.

Definition sample_db : DB :=
  {| users_collection := {[ 42 := sample_draft ]};
     sessions_collection :=
       {[ 42 := {[ "user_id" := VInt 42; "string_session" := VStr "BQFsession" ]} ]};
     github_tokens_collection :=
       {[ 42 := {[ "user_id" := VInt 42; "token" := VStr "ghp_sample" ]} ]} |}.

Definition press (data : string) : CallbackQuery :=
  {| q_from_user := 42;
     q_data := data;
     q_message := {| from_user := 42; chat := 42; text := None; command := [] |} |}.

Definition says (t : string) : Message :=
  {| from_user := 42; chat := 42; text := Some t; command := [] |}.

Definition name_taken : exn :=
  {| cls := GithubException;
     str := "422 name already exists on this account";
     wait := 0 |}.

Definition bad_credentials : exn :=
  {| cls := GithubException; str := "401 Bad credentials"; wait := 0 |}.

Definition phone_number_invalid : exn :=
  {| cls := PhoneNumberInvalid; str := "PHONE_NUMBER_INVALID"; wait := 0 |}.

Definition flood_wait (seconds : Z) : exn :=
  {| cls := FloodWait;
     str := "Telegram says: [420 FLOOD_WAIT_X] - A wait of " +:+ pretty seconds
            +:+ " seconds is required";
     wait := seconds |}.

(** Every call succeeds. *)
Definition obliging : world := fun _ _ => Ok "ok".

(** The hosting platform rejects the creation as a duplicate. *)
Definition rejecting : world :=
  fun _ c =>
    match c with
    | CreateRepo _ _ _ _ _ => Fails name_taken
    | _ => Ok "ok"
    end.

(** The hosting platform rejects every token, the messaging platform
    every phone number. *)
Definition refusing : world :=
  fun _ c =>
    match c with
    | GetUserLogin _ => Fails bad_credentials
    | ClientStart _ => Fails phone_number_invalid
    | _ => Ok "ok"
    end.

(** The messaging platform rate-limits every reply and every copy. *)
Definition throttling : world :=
  fun _ c =>
    match c with
    | ReplyText _ _ _ | CopyMessage _ _ _ => Fails (flood_wait 5)
    | _ => Ok "ok"
    end.

Definition in_step (step : string) (extra : list (string * value)) : DB :=
  on_users
    (update_one_set 42 (("login_step", VStr step) :: extra) false)
    (on_users (update_one_unset 42 ["repo_step"; "repo_name"; "repo_description"])
       sample_db).

(** A store in which user 42 is at the description step of the wizard. *)
Definition describing_db : DB :=
  on_users
    (update_one_set 42 [("repo_step", VStr "description")] false
     ∘ update_one_unset 42 ["repo_description"])
    sample_db.


(** The relay bot's store: user 77 has logged in. *)
Definition relay_db : Relay.DB :=
  {[ 77 := {[ "user_id" := VInt 77; "status" := VStr "active" ]} ]}.

Definition sends (words : list string) : Message :=
  {| from_user := 77; chat := 77; text := None; command := words |}.

(** The standard parser, which answers every link of the shapes above. *)
Definition std_urlparse (link : string) : answer := Ok (Py.urlparse_path link).

End Sample.

(** ** bot.py: the configuration read at start-up *)

Module BotConfig.

(** [[int(admin_id) for admin_id in os.getenv("ADMIN_IDS", default).split(",")
      if admin_id]], the default being the empty string; the argument is
    the value of the environment variable, [None] when it is not set, and
    the result is [None] when an [int()] raises its ValueError. *)
Definition ADMIN_IDS (env : option string) : option (list Z) :=
  mapM Py.int
    (filter (fun admin_id => admin_id <> EmptyString)
       (Py.split "," (default EmptyString env))).

End BotConfig.

(** ** main.py: the admin web console *)

Module Console.
Import Relay.

Record HTTPBasicCredentials := { username : string; password : string }.

Inductive response :=
| TemplateResponse (name : string) (users : list (gmap string value))
| RedirectResponse (url : string) (status_code : Z).

(** What a request ends with when no response is produced: the module
    never imports [HTTPException], so the [raise] in [verify_admin] stops
    at the lookup of that name. *)
Inductive failure :=
| NameError (name : string).

Definition HTTP_303_SEE_OTHER : Z := 303.

Section WithAdmin.
Variables ADMIN_USERNAME ADMIN_PASSWORD : string.

Definition verify_admin (credentials : HTTPBasicCredentials)
  : failure + string :=
  if negb (String.eqb (username credentials) ADMIN_USERNAME)
     || negb (String.eqb (password credentials) ADMIN_PASSWORD)
  then inl (NameError "HTTPException")
  else inr (username credentials).

(** A route with [Depends(verify_admin)]: the dependency runs first and
    the route only if it returned. *)
Definition depends_verify_admin {A} (credentials : HTTPBasicCredentials)
    (route : string -> M DB A) : M DB (failure + A) :=
  match verify_admin credentials with
  | inl f => ret (inl f)
  | inr name => let* r := route name in ret (inr r)
  end.

(** The documents are listed in the order the map enumerates them, by
    user identifier, where the collection lists them in its own order:
    only which documents are listed, and how many, is meant. *)
Definition admin_panel (name : string) : M DB response :=
  let* users_collection := get_store in
  ret (TemplateResponse "admin.html" (map_to_list users_collection).*2).

Definition ban_post (user_id : Z) (name : string) : M DB response :=
  ban_user user_id ;;
  ret (RedirectResponse "/admin" HTTP_303_SEE_OTHER).

Definition unban_post (user_id : Z) (name : string) : M DB response :=
  unban_user user_id ;;
  ret (RedirectResponse "/admin" HTTP_303_SEE_OTHER).
End WithAdmin.

End Console.

(** ** What a run does to the store *)

(** Every run of [m] takes the store to one related to it by [R]. *)
Definition preserves {D A} (R : D -> D -> Prop) (m : M D A) : Prop :=
  forall w s, R (store s) (store (m w s).2).

Module Frames.
Import Bot.

(** The two stores agree on every user outside [us]. *)
Definition same_outside (us : list Z) (a b : DB) : Prop :=
  forall v, v ∉ us ->
    users_collection a !! v = users_collection b !! v /\
    sessions_collection a !! v = sessions_collection b !! v /\
    github_tokens_collection a !! v = github_tokens_collection b !! v.

(** No stored session or access token is lost from [a] to [b]. *)
Definition keeps_credentials (a b : DB) : Prop :=
  forall v,
    (is_Some (stored_session a v) -> is_Some (stored_session b v)) /\
    (is_Some (stored_github_token a v) -> is_Some (stored_github_token b v)).

(** The two stores hold the same sessions and access tokens. *)
Definition same_credentials (a b : DB) : Prop :=
  sessions_collection a = sessions_collection b /\
  github_tokens_collection a = github_tokens_collection b.

(** The call shows no button that sends [data]. *)
Definition no_button (data : string) (c : call) : Prop :=
  match c with
  | ReplyText _ _ keyboard =>
      forallb (fun button => negb (String.eqb button.2 data)) keyboard = true
  | _ => True
  end.

End Frames.

(** * Properties *)

(** ** Exception classes *)

Lemma isinstance_Exception (e : exn) : isinstance e Exception = true.
Proof. destruct e as [[] ? ?]; reflexivity. Qed.

Lemma FloodWait_is_RPCError (e : exn) :
  isinstance e FloodWait = true -> isinstance e RPCError = true.
Proof. destruct e as [[] ? ?]; vm_compute; congruence. Qed.

Lemma isinstance_own_class (e : exn) : isinstance e (cls e) = true.
Proof. destruct e as [[] ? ?]; reflexivity. Qed.

(** ** Running handlers *)

Ltac unfold_monad :=
  unfold run, reply_text, text_strip, getitem_opt, getitem, try_except, bind,
    perform, modify, get_store, ret, raise in *.

(** Case analysis on the answer of the world to the next call whose
    answer no hypothesis fixes. *)
Ltac any_answer :=
  match goal with
  | |- context [match ?w ?n ?c with Ok _ => _ | Fails _ => _ end] =>
      destruct (w n c)
  end.

(** A reply leaves the store alone and adds itself to the trace, whatever
    the platform answers. *)
Lemma reply_text_effect {D} (message : Message) text keyboard w (s : state D) :
  (reply_text message text keyboard w s).2 =
  {| store := store s;
     trace := trace s ++ [ReplyText (chat message) text keyboard] |}.
Proof. unfold_monad. destruct (w _ _); reflexivity. Qed.

Lemma update_one_set_lookup u fields upsert (c : collection) d :
  c !! u = Some d ->
  update_one_set u fields upsert c !! u = Some (set_fields fields d).
Proof. intros H. unfold update_one_set. rewrite H. apply lookup_insert_eq. Qed.

Lemma update_one_unset_lookup u names (c : collection) d :
  c !! u = Some d ->
  update_one_unset u names c !! u = Some (unset_fields names d).
Proof. intros H. unfold update_one_unset. rewrite H. apply lookup_insert_eq. Qed.

Lemma update_one_set_upsert_lookup u k v (c : collection) :
  (update_one_set u [(k, v)] true c !! u) ≫= (.!! k) = Some v.
Proof.
  unfold update_one_set.
  destruct (c !! u) eqn:H; rewrite lookup_insert_eq; cbn;
    apply lookup_insert_eq.
Qed.

Lemma bind_get_store {D A} (k : D -> M D A) w s :
  bind get_store k w s = k (store s) w s.
Proof. reflexivity. Qed.

(** A clause behind one that already catches its class is never chosen:
    what it would run does not matter. *)
Lemma try_except_shadowed {D A} (body : M D A) c1 h1 c2 h2 c3 h3 h3' w s :
  (forall e, isinstance e c3 = true -> isinstance e c2 = true) ->
  try_except body [(c1, h1); (c2, h2); (c3, h3)] w s =
  try_except body [(c1, h1); (c2, h2); (c3, h3')] w s.
Proof.
  intros Hsub. unfold try_except.
  destruct (body w s) as [[a|e|] s']; try reflexivity.
  cbn [find_clause].
  destruct (isinstance e c1); [reflexivity|].
  destruct (isinstance e c2) eqn:H2; [reflexivity|].
  destruct (isinstance e c3) eqn:H3; [|reflexivity].
  apply Hsub in H3. congruence.
Qed.

(** ** Calls a computation can make *)

Section Within.
Context {D : Type} (P : call -> Prop).

Lemma within_ret {A} (a : A) : within (D:=D) P (ret a).
Proof. intros w s Hs. by split. Qed.

Lemma within_raise {A} (e : exn) : within (D:=D) (A:=A) P (raise e).
Proof. intros w s Hs. by split. Qed.

Lemma within_get_store : within (D:=D) P get_store.
Proof. intros w s Hs. by split. Qed.

Lemma within_modify (f : D -> D) : within P (modify f).
Proof. intros w s Hs. by split. Qed.

Lemma within_perform (c : call) : P c -> within (D:=D) P (perform c).
Proof.
  intros Hc w s Hs. unfold perform.
  destruct (w _ c); cbn; (split; [done|]);
    apply Forall_app; split; auto.
Qed.

Lemma within_bind {A B} (m : M D A) (k : A -> M D B) :
  within P m -> (forall a, within P (k a)) -> within P (bind m k).
Proof.
  intros Hm Hk w s Hs. unfold bind.
  destruct (Hm w s Hs) as [Hres Htrace].
  destruct (m w s) as [[a|e|] s']; cbn in *; [|by split|done].
  by apply Hk.
Qed.

Lemma within_try_except {A} (body : M D A) clauses :
  within P body ->
  (forall e h, find_clause e clauses = Some h -> within P h) ->
  within P (try_except body clauses).
Proof.
  intros Hbody Hclauses w s Hs. unfold try_except.
  destruct (Hbody w s Hs) as [Hres Htrace].
  destruct (body w s) as [[a|e|] s']; cbn in *; [by split| |done].
  destruct (find_clause e clauses) as [h|] eqn:Hh; [|by split].
  by apply (Hclauses e h Hh).
Qed.

Lemma within_reply_text message text keyboard :
  P (ReplyText (chat message) text keyboard) ->
  within (D:=D) P (reply_text message text keyboard).
Proof.
  intros Hc. apply within_bind; [by apply within_perform|].
  intros _. apply within_ret.
Qed.

Lemma within_getitem (d : doc) k : within (D:=D) P (getitem d k).
Proof.
  unfold getitem. destruct (d !! k); [apply within_ret|apply within_raise].
Qed.

Lemma within_getitem_opt (d : option doc) k :
  within (D:=D) P (getitem_opt d k).
Proof.
  destruct d; [apply within_getitem|apply within_raise].
Qed.

Lemma within_text_strip message : within (D:=D) P (text_strip message).
Proof.
  unfold text_strip.
  destruct (text message); [apply within_ret|apply within_raise].
Qed.

Lemma within_run {A} (m : M D A) w db c :
  within P m -> c ∈ trace (run m w db).2 -> P c.
Proof.
  intros Hm Hc. destruct (Hm w {| store := db; trace := [] |}) as [_ H].
  - constructor.
  - rewrite Forall_forall in H. by apply H.
Qed.
End Within.

Create HintDb within.

#[global] Hint Resolve within_ret within_raise within_get_store within_modify
  within_getitem within_getitem_opt within_text_strip : within.
#[global] Hint Extern 1 (not_sleep _) => exact I : within.
#[global] Hint Extern 2 (within _ (reply_text _ _ _)) =>
  apply within_reply_text : within.
#[global] Hint Extern 2 (within _ (perform _)) => apply within_perform : within.
#[global] Hint Extern 3 (within _ (bind _ _)) =>
  apply within_bind; [|intros ?] : within.

Module BotProps.
Import Bot Sample.

Lemma get_user_session_run u w (s : state DB) :
  get_user_session u w s =
  (match session_of (store s) u with
   | Some v => Ret v
   | None => Raise (key_error "string_session")
   end, s).
Proof.
  unfold get_user_session, session_of. unfold_monad.
  destruct (sessions_collection (store s) !! u) as [d|]; [|reflexivity].
  by destruct (d !! "string_session").
Qed.

Lemma get_github_token_run u w (s : state DB) :
  get_github_token u w s =
  (match token_of (store s) u with
   | Some v => Ret v
   | None => Raise (key_error "token")
   end, s).
Proof.
  unfold get_github_token, token_of. unfold_monad.
  destruct (github_tokens_collection (store s) !! u) as [d|]; [|reflexivity].
  by destruct (d !! "token").
Qed.

(** C7: in the [github_token] step, when the validating call fails the
    store is left as it was, so no access token is written and
    [login_step] is still [github_token]; when the failure is the hosting
    platform's own (a GithubException) the reply is the invalid-token
    message. *)
Theorem C7_failed_token_validation_keeps_step
    (w : world) (db : DB) (message : Message) (d : doc) (t : string)
    (e : exn) :
  users_collection db !! from_user message = Some d ->
  d !! "login_step" = Some (VStr "github_token") ->
  text message = Some t ->
  w 0%nat (GetUserLogin (Py.strip t)) = Fails e ->
  let r := run (login_steps message) w db in
  store r.2 = db /\
  stored_github_token (store r.2) (from_user message)
    = stored_github_token db (from_user message) /\
  field (store r.2) (from_user message) "login_step"
    = Some (VStr "github_token") /\
  (isinstance e GithubException = true ->
   trace r.2 =
     [GetUserLogin (Py.strip t);
      ReplyText (chat message) ("❌ Invalid GitHub token: " +:+ str e) []]).
Proof.
  intros Hd Hstep Ht Hw r.
  assert (Hrun : store r.2 = db /\
    (isinstance e GithubException = true ->
     trace r.2 =
       [GetUserLogin (Py.strip t);
        ReplyText (chat message) ("❌ Invalid GitHub token: " +:+ str e) []])).
  { subst r. unfold login_steps. unfold_monad. cbn [store trace].
    rewrite Hd, Hstep, Ht.
    rewrite !bool_decide_eq_false_2 by discriminate.
    rewrite bool_decide_eq_true_2 by reflexivity.
    cbn [length app trace store]. rewrite Hw. cbn [find_clause].
    destruct (isinstance e GithubException) eqn:Hg.
    - any_answer; cbn; split; auto.
    - rewrite isinstance_Exception. any_answer; cbn; split; auto; discriminate. }
  destruct Hrun as [Hstore Htrace]. rewrite Hstore.
  repeat split; auto. unfold field. rewrite Hd. exact Hstep.
Qed.

(** C8: in the [phone] step, when starting the session or requesting the
    code fails with PhoneNumberInvalid, the invalid-number message is the
    last thing sent, the store is left as it was, so [login_step] is still
    [phone] and no session is written. *)
Theorem C8_invalid_phone_stays_in_phone_step
    (w : world) (db : DB) (message : Message) (d : doc) (t r0 : string)
    (e : exn) :
  users_collection db !! from_user message = Some d ->
  d !! "login_step" = Some (VStr "phone") ->
  text message = Some t ->
  cls e = PhoneNumberInvalid ->
  (w 0%nat (ClientStart (Py.strip t)) = Fails e \/
   w 0%nat (ClientStart (Py.strip t)) = Ok r0 /\
   w 1%nat (SendCode (Py.strip t)) = Fails e) ->
  let r := run (login_steps message) w db in
  store r.2 = db /\
  field (store r.2) (from_user message) "login_step" = Some (VStr "phone") /\
  stored_session (store r.2) (from_user message)
    = stored_session db (from_user message) /\
  last (trace r.2) =
    Some (ReplyText (chat message) "❌ Invalid phone number. Try again." []).
Proof.
  intros Hd Hstep Ht Hcls Hw r.
  assert (He : isinstance e PhoneNumberInvalid = true).
  { rewrite <- Hcls. apply isinstance_own_class. }
  assert (Hrun : store r.2 = db /\ last (trace r.2) =
    Some (ReplyText (chat message) "❌ Invalid phone number. Try again." [])).
  { subst r. unfold login_steps. unfold_monad. cbn [store trace].
    rewrite Hd, Hstep, Ht.
    rewrite bool_decide_eq_true_2 by reflexivity.
    cbn [length app trace store].
    destruct Hw as [Hw | [Hw0 Hw1]].
    - rewrite Hw. cbn [find_clause]. rewrite He.
      any_answer; cbn; auto.
    - rewrite Hw0. cbn [length app trace store]. rewrite Hw1.
      cbn [find_clause]. rewrite He. any_answer; cbn; auto. }
  destruct Hrun as [Hstore Hlast]. rewrite Hstore.
  repeat split; auto. unfold field. rewrite Hd. exact Hstep.
Qed.

Lemma unset_login_state_cleared (db : DB) (u : Z) (d : doc) :
  users_collection db !! u = Some d ->
  login_state_cleared
    (on_users (update_one_unset u ["login_step"; "phone"; "phone_code_hash"]) db)
    u.
Proof.
  intros Hd. unfold login_state_cleared, field, on_users. cbn.
  rewrite (update_one_unset_lookup _ _ _ _ Hd). cbn.
  repeat split; by simplify_map_eq.
Qed.

(** C2: when the code step succeeds directly, or the password step
    succeeds after the second factor was asked for (the sign-in or
    password check, the export of the session string and the stop of the
    client all return, and the success message is delivered), the
    exported session string is the stored session of the user and the
    three LoginState fields are gone from the user's document. *)
Theorem C2_successful_login_stores_session_and_clears_state
    (w : world) (db : DB) (message : Message) (d : doc)
    (step t session r0 r2 r3 : string) (phone phone_code_hash : value)
    (first : call) :
  users_collection db !! from_user message = Some d ->
  d !! "login_step" = Some (VStr step) ->
  text message = Some t ->
  d !! "phone" = Some phone ->
  (step = "code" /\ d !! "phone_code_hash" = Some phone_code_hash /\
     first = SignIn phone phone_code_hash (Py.strip t)
   \/ step = "password" /\ first = CheckPassword (Py.strip t)) ->
  w 0%nat first = Ok r0 ->
  w 1%nat ExportSessionString = Ok session ->
  w 2%nat ClientStop = Ok r2 ->
  w 3%nat (ReplyText (chat message)
             "✅ Telegram login successful! Now use GitHub login or /create." [])
    = Ok r3 ->
  let r := run (login_steps message) w db in
  stored_session (store r.2) (from_user message) = Some (VStr session) /\
  login_state_cleared (store r.2) (from_user message) /\
  trace r.2 =
    [first; ExportSessionString; ClientStop;
     ReplyText (chat message)
       "✅ Telegram login successful! Now use GitHub login or /create." []].
Proof.
  intros Hd Hstep Ht Hphone Hcase Hw0 Hw1 Hw2 Hw3 r. subst r.
  unfold login_steps. unfold_monad. cbn [store trace].
  rewrite Hd, Hstep, Ht.
  destruct Hcase as [(-> & Hhash & ->) | (-> & ->)].
  - rewrite bool_decide_eq_false_2 by discriminate.
    rewrite bool_decide_eq_true_2 by reflexivity.
    cbn. rewrite Hphone, Hhash. cbn. rewrite Hw0. cbn.
    rewrite Hw1. cbn. rewrite Hw2. cbn. rewrite Hw3. cbn.
    split; [apply update_one_set_upsert_lookup | split; [|reflexivity]].
    apply (unset_login_state_cleared
             (on_sessions _ db) (from_user message) d Hd).
  - rewrite !bool_decide_eq_false_2 by discriminate.
    rewrite bool_decide_eq_true_2 by reflexivity.
    cbn. rewrite Hphone. cbn. rewrite Hw0. cbn.
    rewrite Hw1. cbn. rewrite Hw2. cbn. rewrite Hw3. cbn.
    split; [apply update_one_set_upsert_lookup | split; [|reflexivity]].
    apply (unset_login_state_cleared
             (on_sessions _ db) (from_user message) d Hd).
Qed.

(** *** The visibility step *)

Section Visibility.
Variables (w : world) (db : DB) (query : CallbackQuery) (d : doc).
Variables (name description token : value).
Hypothesis Hdoc : users_collection db !! q_from_user query = Some d.
Hypothesis Hname : d !! "repo_name" = Some name.
Hypothesis Hdescription : d !! "repo_description" = Some description.
Hypothesis Htoken : token_of db (q_from_user query) = Some token.

Let creation : call :=
  CreateRepo token name description
    (String.eqb (q_data query) "repo_private") true.

Lemma visibility_first_call :
  head (trace (run (handle_repo_visibility query) w db).2) = Some creation.
Proof.
  unfold run, handle_repo_visibility. unfold_monad. cbn [store trace].
  rewrite Hdoc, Hname, Hdescription.
  rewrite get_github_token_run. cbn [store]. rewrite Htoken.
  cbn [length app trace store]. fold creation.
  destruct (w 0%nat creation) as [url|e].
  - any_answer; [reflexivity|]. cbn [find_clause].
    destruct (isinstance _ GithubException).
    + any_answer; reflexivity.
    + rewrite isinstance_Exception. any_answer; reflexivity.
  - cbn [find_clause]. destruct (isinstance _ GithubException).
    + any_answer; reflexivity.
    + rewrite isinstance_Exception. any_answer; reflexivity.
Qed.

Lemma visibility_created url :
  w 0%nat creation = Ok url ->
  store (run (handle_repo_visibility query) w db).2 =
  on_users (update_one_unset (q_from_user query)
              ["repo_step"; "repo_name"; "repo_description"]) db.
Proof.
  intros Hw. unfold run, handle_repo_visibility. unfold_monad.
  cbn [store trace].
  rewrite Hdoc, Hname, Hdescription.
  rewrite get_github_token_run. cbn [store]. rewrite Htoken.
  cbn [length app trace store]. fold creation. rewrite Hw.
  any_answer; [reflexivity|]. cbn [find_clause].
  destruct (isinstance _ GithubException).
  - any_answer; reflexivity.
  - rewrite isinstance_Exception. any_answer; reflexivity.
Qed.

Lemma visibility_rejected e :
  w 0%nat creation = Fails e ->
  isinstance e GithubException = true ->
  (run (handle_repo_visibility query) w db).2 =
  {| store := db;
     trace := [creation;
               ReplyText (chat (q_message query))
                 ("❌ Failed to create repository: " +:+ str e) []] |}.
Proof.
  intros Hw He. unfold run, handle_repo_visibility. unfold_monad.
  cbn [store trace].
  rewrite Hdoc, Hname, Hdescription.
  rewrite get_github_token_run. cbn [store]. rewrite Htoken.
  cbn [length app trace store]. fold creation. rewrite Hw.
  cbn [find_clause]. rewrite He. any_answer; reflexivity.
Qed.
End Visibility.

Lemma unset_repo_draft_cleared (db : DB) (u : Z) (d : doc) :
  users_collection db !! u = Some d ->
  repo_draft_cleared
    (on_users (update_one_unset u ["repo_step"; "repo_name"; "repo_description"])
       db) u.
Proof.
  intros Hd. unfold repo_draft_cleared, field, on_users. cbn.
  rewrite (update_one_unset_lookup _ _ _ _ Hd). cbn.
  repeat split; by simplify_map_eq.
Qed.

(** C1, as stated, fails: a rejected creation leaves the draft in the
    user's document. *)
Lemma C1_rejection_leaves_draft : ~ rejection_clears_draft.
Proof.
  intros H.
  destruct (H rejecting sample_db (press "repo_public") sample_draft
              (VStr "my-new-repo") VNone (VStr "ghp_sample") name_taken)
    as [Hstep _]; try reflexivity.
  vm_compute in Hstep. discriminate.
Qed.

(** C1, amended: for a user whose draft is at the visibility step, when
    the hosting platform rejects the creation with a GithubException the
    failure message is sent to the user and the store is left as it was:
    the draft keeps its step [visibility], its name and its description.
    When the creation succeeds, the three fields of the draft are
    cleared. *)
Theorem C1_rejection_keeps_draft_success_clears_it
    (w : world) (db : DB) (query : CallbackQuery) (d : doc)
    (name description token : value) :
  users_collection db !! q_from_user query = Some d ->
  d !! "repo_step" = Some (VStr "visibility") ->
  d !! "repo_name" = Some name ->
  d !! "repo_description" = Some description ->
  token_of db (q_from_user query) = Some token ->
  let creation :=
    CreateRepo token name description
      (String.eqb (q_data query) "repo_private") true in
  let r := run (handle_repo_visibility query) w db in
  (forall e : exn,
      w 0%nat creation = Fails e ->
      cls e = GithubException ->
      trace r.2 =
        [creation;
         ReplyText (chat (q_message query))
           ("❌ Failed to create repository: " +:+ str e) []] /\
      store r.2 = db /\
      field (store r.2) (q_from_user query) "repo_step"
        = Some (VStr "visibility") /\
      field (store r.2) (q_from_user query) "repo_name" = Some name /\
      field (store r.2) (q_from_user query) "repo_description"
        = Some description) /\
  (forall url : string,
      w 0%nat creation = Ok url ->
      head (trace r.2) = Some creation /\
      repo_draft_cleared (store r.2) (q_from_user query)).
Proof.
  intros Hd Hstep Hname Hdescription Htoken creation r. subst creation r.
  split.
  - intros e Hw Hcls.
    assert (He : isinstance e GithubException = true).
    { rewrite <- Hcls. apply isinstance_own_class. }
    rewrite (visibility_rejected w db query d name description token
               Hd Hname Hdescription Htoken e Hw He).
    cbn [store trace snd]. unfold field. rewrite Hd. cbn. auto.
  - intros url Hw. split.
    + exact (visibility_first_call w db query d name description token
               Hd Hname Hdescription Htoken).
    + rewrite (visibility_created w db query d name description token
                 Hd Hname Hdescription Htoken url Hw).
      by apply (unset_repo_draft_cleared db _ d).
Qed.

(** The sample draft survives a duplicate-name rejection and is cleared
    by a creation that succeeds. *)
Lemma C1_rejection_and_success_witness :
  (run (handle_repo_visibility (press "repo_public")) rejecting sample_db).2 =
  {| store := sample_db;
     trace :=
       [CreateRepo (VStr "ghp_sample") (VStr "my-new-repo") VNone false true;
        ReplyText 42
          "❌ Failed to create repository: 422 name already exists on this account"
          []] |} /\
  repo_draft_cleared
    (store (run (handle_repo_visibility (press "repo_public")) obliging
              sample_db).2) 42.
Proof.
  split.
  - pose proof (C1_rejection_keeps_draft_success_clears_it
                  rejecting sample_db (press "repo_public") sample_draft
                  (VStr "my-new-repo") VNone (VStr "ghp_sample")
                  eq_refl eq_refl eq_refl eq_refl eq_refl)
      as [Hrejected _].
    destruct (Hrejected name_taken eq_refl eq_refl) as (Htrace & Hstore & _).
    destruct (run _ _ _).2 as [st tr]. cbn in Htrace, Hstore.
    rewrite Htrace, Hstore. reflexivity.
  - pose proof (C1_rejection_keeps_draft_success_clears_it
                  obliging sample_db (press "repo_public") sample_draft
                  (VStr "my-new-repo") VNone (VStr "ghp_sample")
                  eq_refl eq_refl eq_refl eq_refl eq_refl)
      as [_ Hcreated].
    exact (proj2 (Hcreated "ok" eq_refl)).
Defined.

(** C4: once a first press of a visibility button has created the
    repository and so cleared the draft, any later press by the same
    user, whatever the button and whatever the platforms would answer,
    stops at the lookup of the missing [repo_name]: no call is made, so
    no second repository is created, and the store is left as it is. *)
Theorem C4_second_press_finds_no_draft
    (w : world) (db : DB) (query : CallbackQuery) (d : doc)
    (name description token : value) (url : string) :
  users_collection db !! q_from_user query = Some d ->
  d !! "repo_name" = Some name ->
  d !! "repo_description" = Some description ->
  token_of db (q_from_user query) = Some token ->
  w 0%nat (CreateRepo token name description
             (String.eqb (q_data query) "repo_private") true) = Ok url ->
  let db1 := store (run (handle_repo_visibility query) w db).2 in
  repo_draft_cleared db1 (q_from_user query) /\
  forall (w' : world) (query' : CallbackQuery),
    q_from_user query' = q_from_user query ->
    run (handle_repo_visibility query') w' db1 =
    (Raise (key_error "repo_name"), {| store := db1; trace := [] |}).
Proof.
  intros Hd Hname Hdescription Htoken Hw db1. subst db1.
  rewrite (visibility_created w db query d name description token
             Hd Hname Hdescription Htoken url Hw).
  split; [by apply (unset_repo_draft_cleared db _ d)|].
  intros w' query' Huser.
  unfold run, handle_repo_visibility. unfold_monad. cbn [store trace].
  rewrite Huser. unfold on_users at 1. cbn [users_collection].
  rewrite (update_one_unset_lookup _ _ _ _ Hd). cbn.
  by simplify_map_eq.
Qed.

(** On the sample store: one successful press, then any press fails. *)
Lemma C4_second_press_witness :
  let db1 :=
    store (run (handle_repo_visibility (press "repo_public")) obliging
             sample_db).2 in
  repo_draft_cleared db1 42 /\
  forall (w' : world) (query' : CallbackQuery),
    q_from_user query' = 42 ->
    run (handle_repo_visibility query') w' db1 =
    (Raise (key_error "repo_name"), {| store := db1; trace := [] |}).
Proof.
  exact (C4_second_press_finds_no_draft
           obliging sample_db (press "repo_public") sample_draft
           (VStr "my-new-repo") VNone (VStr "ghp_sample") "ok"
           eq_refl eq_refl eq_refl eq_refl eq_refl).
Defined.

(** *** The description step *)

Example none_sentinel_spellings :
  map (fun t => Py.lower (Py.strip t)) ["None"; "none"; " NONE "; "nOnE"]
  = ["none"; "none"; "none"; "none"].
Proof. reflexivity. Qed.

Lemma description_step_store (w : world) (db : DB) (message : Message)
    (d : doc) (t : string) :
  users_collection db !! from_user message = Some d ->
  d !! "repo_step" = Some (VStr "description") ->
  text message = Some t ->
  store (run (repo_steps message) w db).2 =
  on_users
    (update_one_set (from_user message)
       [("repo_description",
         if negb (String.eqb (Py.lower (Py.strip t)) "none")
         then VStr (Py.strip t) else VNone);
        ("repo_step", VStr "visibility")] false) db.
Proof.
  intros Hd Hstep Ht. unfold run, repo_steps. unfold_monad.
  cbn [store trace]. rewrite Hd, Hstep, Ht.
  rewrite bool_decide_eq_false_2 by discriminate.
  rewrite bool_decide_eq_true_2 by reflexivity.
  any_answer; reflexivity.
Qed.

(** C6: in the description step an input that, trimmed and lowercased, is
    [none] is stored as the null description and the draft moves to the
    visibility step; pressing the public button then calls the creation
    with that null description and [private=False]. *)
Theorem C6_none_description_then_public
    (w : world) (db : DB) (message : Message) (d : doc) (t : string)
    (name : value) :
  users_collection db !! from_user message = Some d ->
  d !! "repo_step" = Some (VStr "description") ->
  d !! "repo_name" = Some name ->
  text message = Some t ->
  Py.lower (Py.strip t) = "none" ->
  let db1 := store (run (repo_steps message) w db).2 in
  field db1 (from_user message) "repo_description" = Some VNone /\
  field db1 (from_user message) "repo_step" = Some (VStr "visibility") /\
  forall (w' : world) (query : CallbackQuery) (token : value),
    q_from_user query = from_user message ->
    q_data query = "repo_public" ->
    token_of db (from_user message) = Some token ->
    head (trace (run (handle_repo_visibility query) w' db1).2) =
    Some (CreateRepo token name VNone false true).
Proof.
  intros Hd Hstep Hname Ht Hnone db1. subst db1.
  rewrite (description_step_store w db message d t Hd Hstep Ht).
  rewrite Hnone. cbn [String.eqb Ascii.eqb Bool.eqb negb].
  set (d1 := set_fields
       [("repo_description", VNone); ("repo_step", VStr "visibility")] d).
  assert (Hd1 : users_collection
            (on_users (update_one_set (from_user message)
               [("repo_description", VNone); ("repo_step", VStr "visibility")]
               false) db) !! from_user message = Some d1).
  { exact (update_one_set_lookup _ _ _ _ _ Hd). }
  assert (Hdescription : d1 !! "repo_description" = Some VNone).
  { subst d1. cbn. by simplify_map_eq. }
  assert (Hname1 : d1 !! "repo_name" = Some name).
  { subst d1. cbn. by simplify_map_eq. }
  unfold field. rewrite Hd1. cbn [mbind option_bind].
  split; [exact Hdescription|].
  split; [subst d1; cbn; by simplify_map_eq|].
  intros w' [user data shown] token Huser Hdata Htoken.
  cbn in Huser, Hdata. subst user data.
  exact (visibility_first_call w' _
           {| q_from_user := from_user message; q_data := "repo_public";
              q_message := shown |}
           d1 name VNone token Hd1 Hname1 Hdescription Htoken).
Qed.

(** The round trip with name [my-new-repo], description [None], public. *)
Lemma C6_none_description_witness :
  let db1 := store (run (repo_steps (says "None")) obliging describing_db).2 in
  field db1 42 "repo_description" = Some VNone /\
  field db1 42 "repo_step" = Some (VStr "visibility") /\
  head (trace (run (handle_repo_visibility (press "repo_public")) obliging
                 db1).2) =
  Some (CreateRepo (VStr "ghp_sample") (VStr "my-new-repo") VNone false true).
Proof.
  pose proof (C6_none_description_then_public
                obliging describing_db (says "None")
                {[ "user_id" := VInt 42; "repo_step" := VStr "description";
                   "repo_name" := VStr "my-new-repo" ]}
                "None" (VStr "my-new-repo")
                eq_refl eq_refl eq_refl eq_refl eq_refl)
    as (Hdescription & Hstep & Hpress).
  split; [exact Hdescription|]. split; [exact Hstep|].
  exact (Hpress obliging (press "repo_public") (VStr "ghp_sample")
           eq_refl eq_refl eq_refl).
Defined.

(** *** Entering the wizard *)









(** *** The login steps on the sample store *)

(** The code step succeeding at once. *)
Lemma C2_successful_login_witness :
  let r := run (login_steps (says "12345")) obliging
             (in_step "code"
                [("phone", VStr "+15550100"); ("phone_code_hash", VStr "hash1")]) in
  stored_session (store r.2) 42 = Some (VStr "ok") /\
  login_state_cleared (store r.2) 42 /\
  trace r.2 =
    [SignIn (VStr "+15550100") (VStr "hash1") "12345"; ExportSessionString;
     ClientStop;
     ReplyText 42
       "✅ Telegram login successful! Now use GitHub login or /create." []].
Proof.
  exact (C2_successful_login_stores_session_and_clears_state
           obliging
           (in_step "code"
              [("phone", VStr "+15550100"); ("phone_code_hash", VStr "hash1")])
           (says "12345")
           {[ "user_id" := VInt 42; "login_step" := VStr "code";
              "phone" := VStr "+15550100"; "phone_code_hash" := VStr "hash1" ]}
           "code" "12345" "ok" "ok" "ok" "ok"
           (VStr "+15550100") (VStr "hash1")
           (SignIn (VStr "+15550100") (VStr "hash1") "12345")
           eq_refl eq_refl eq_refl eq_refl
           (or_introl (conj eq_refl (conj eq_refl eq_refl)))
           eq_refl eq_refl eq_refl eq_refl).
Defined.

(** A token the hosting platform answers with bad credentials. *)
Lemma C7_failed_token_validation_witness :
  let r := run (login_steps (says " ghp_wrong ")) refusing
             (in_step "github_token" []) in
  store r.2 = in_step "github_token" [] /\
  stored_github_token (store r.2) 42 = Some (VStr "ghp_sample") /\
  field (store r.2) 42 "login_step" = Some (VStr "github_token") /\
  trace r.2 =
    [GetUserLogin "ghp_wrong";
     ReplyText 42 "❌ Invalid GitHub token: 401 Bad credentials" []].
Proof.
  pose proof (C7_failed_token_validation_keeps_step
                refusing (in_step "github_token" []) (says " ghp_wrong ")
                {[ "user_id" := VInt 42; "login_step" := VStr "github_token" ]}
                " ghp_wrong " bad_credentials
                eq_refl eq_refl eq_refl eq_refl)
    as (Hstore & Htoken & Hstep & Htrace).
  split; [exact Hstore|]. split; [exact Htoken|]. split; [exact Hstep|].
  exact (Htrace eq_refl).
Defined.

(** A phone number the messaging platform refuses. *)
Lemma C8_invalid_phone_witness :
  let r := run (login_steps (says "12345")) refusing (in_step "phone" []) in
  store r.2 = in_step "phone" [] /\
  field (store r.2) 42 "login_step" = Some (VStr "phone") /\
  stored_session (store r.2) 42 = Some (VStr "BQFsession") /\
  last (trace r.2) =
    Some (ReplyText 42 "❌ Invalid phone number. Try again." []).
Proof.
  exact (C8_invalid_phone_stays_in_phone_step
           refusing (in_step "phone" []) (says "12345")
           {[ "user_id" := VInt 42; "login_step" := VStr "phone" ]}
           "12345" "ok" phone_number_invalid
           eq_refl eq_refl eq_refl eq_refl (or_introl eq_refl)).
Defined.

(** *** Rate limits *)

Lemma get_github_token_within P u : within P (get_github_token u).
Proof.
  unfold get_github_token. apply within_bind; [auto with within|].
  intros db. destruct (_ !! u); auto with within.
Qed.

(** The visibility step never sleeps: its FloodWait clause is behind the
    Exception clause, which catches everything. *)
Lemma handle_repo_visibility_within (query : CallbackQuery) :
  within not_sleep (handle_repo_visibility query).
Proof.
  unfold handle_repo_visibility.
  apply within_bind; [auto with within|]. intros db.
  apply within_bind; [auto with within|]. intros repo_name.
  apply within_bind; [auto with within|]. intros description.
  apply within_try_except.
  - apply within_bind; [apply get_github_token_within|]. intros token.
    auto 6 with within.
  - intros e h. cbn [find_clause].
    destruct (isinstance e GithubException); [intros [= <-]; auto with within|].
    rewrite isinstance_Exception. intros [= <-]. auto with within.
Qed.

End BotProps.

Module RelayProps.
Import Relay Sample.

(** The handler never calls itself: the clause that would is behind the
    RPCError clause, which catches every FloodWait.  One unit of fuel is
    therefore all a run ever uses. *)
Lemma save_content_fuel_irrelevant (urlparse_path : string -> answer)
    (fuel : nat) (message : Message) (w : world) (s : state DB) :
  save_content urlparse_path (S fuel) message w s =
  save_content urlparse_path 1 message w s.
Proof.
  cbn [save_content]. rewrite !bind_get_store.
  destruct (negb _); [reflexivity|].
  destruct (command message) as [|cmd [|link rest]]; try reflexivity.
  apply try_except_shadowed, FloodWait_is_RPCError.
Qed.

(** *** Logging in *)

Lemma ban_user_bans (w : world) (db : DB) (u : Z) (d : doc) :
  db !! u = Some d ->
  status (store (run (ban_user u) w db).2) u = Some (VStr "banned").
Proof.
  intros Hd. unfold run, ban_user, modify, status. cbn [store snd].
  rewrite (update_one_set_lookup _ _ _ _ _ Hd). cbn. by simplify_map_eq.
Qed.

(** C9: a user whose stored status is [banned] is not logged in; after
    that user sends /login with the password equal to USER_PASSWORD the
    stored status is [active] and [is_logged_in] holds. *)
Theorem C9_correct_password_lifts_ban
    (USER_PASSWORD : string) (w : world) (db : DB) (message : Message)
    (d : doc) (cmd : string) (rest : list string) :
  db !! from_user message = Some d ->
  d !! "status" = Some (VStr "banned") ->
  command message = cmd :: USER_PASSWORD :: rest ->
  let db1 := store (run (login USER_PASSWORD message) w db).2 in
  is_logged_in db (from_user message) = false /\
  status db1 (from_user message) = Some (VStr "active") /\
  is_logged_in db1 (from_user message) = true.
Proof.
  intros Hd Hstatus Hcommand db1.
  assert (Hdb1 : db1 =
    update_one_set (from_user message) [("status", VStr "active")] true db).
  { subst db1. unfold run, login. rewrite Hcommand, String.eqb_refl.
    unfold add_user, bind, modify. cbn [store trace].
    by rewrite reply_text_effect. }
  rewrite Hdb1. clear db1 Hdb1. unfold is_logged_in, status.
  rewrite Hd, Hstatus, (update_one_set_lookup _ _ _ _ _ Hd). cbn.
  split; [by rewrite bool_decide_eq_false_2|].
  split; [by simplify_map_eq|].
  rewrite bool_decide_eq_true_2; [done|]. by simplify_map_eq.
Qed.

(** User 77 is banned, then logs in with the password. *)
Lemma C9_correct_password_lifts_ban_witness :
  let banned := store (run (ban_user 77) obliging relay_db).2 in
  let db1 :=
    store (run (login "userpass" (sends ["login"; "userpass"])) obliging
             banned).2 in
  is_logged_in banned 77 = false /\
  status db1 77 = Some (VStr "active") /\
  is_logged_in db1 77 = true.
Proof.
  exact (C9_correct_password_lifts_ban "userpass" obliging
           (store (run (ban_user 77) obliging relay_db).2)
           (sends ["login"; "userpass"])
           {[ "user_id" := VInt 77; "status" := VStr "banned" ]}
           "login" [] eq_refl eq_refl eq_refl).
Defined.

(** *** The link parser of /save *)



Section Links.
Variables (urlparse_path : string -> answer) (w : world) (db : DB).
Variables (message : Message) (cmd link path : string) (rest : list string).
Hypothesis Hlogged : is_logged_in db (from_user message) = true.
Hypothesis Hcommand : command message = cmd :: link :: rest.
Hypothesis Hpath : urlparse_path link = Ok path.

Let r := run (save_content urlparse_path 1 message) w db.








End Links.




(** *** Rate limits *)

(** The relay handler never sleeps, and one unit of fuel is enough for it
    to finish. *)
Lemma save_content_within (urlparse_path : string -> answer) (fuel : nat)
    (message : Message) :
  within not_sleep (save_content urlparse_path (S fuel) message).
Proof.
  intros w s. rewrite save_content_fuel_irrelevant. revert w s.
  cbn [save_content]. apply within_bind; [auto with within|].
  intros users. destruct (negb _); [auto with within|].
  destruct (command message) as [|cmd [|link rest]]; auto with within.
  apply within_try_except.
  - unfold getindex, int_of.
    repeat first
      [ apply within_bind; [|intros ?]
      | match goal with
        | |- within _ (match ?x with _ => _ end) => destruct x
        end
      | solve [auto with within] ].
  - intros e h. cbn [find_clause].
    destruct (isinstance e ValueError); [intros [= <-]; auto with within|].
    destruct (isinstance e RPCError) eqn:Hrpc.
    + intros [= <-]. destruct (_ || _); auto with within.
    + destruct (isinstance e FloodWait) eqn:Hfw; [|done].
      apply FloodWait_is_RPCError in Hfw. congruence.
Qed.

Lemma save_content_returns (urlparse_path : string -> answer) (fuel : nat)
    (message : Message) (w : world) (db : DB) :
  (run (save_content urlparse_path (S fuel) message) w db).1 <> OutOfFuel.
Proof.
  apply (save_content_within urlparse_path fuel message). constructor.
Qed.

End RelayProps.

(** ** Rate limits in both bots *)

Import Sample.

(** C3: what the two handlers do with a rate-limit signal.  Neither ever
    sleeps, whatever the platforms answer, and the relay handler never
    calls itself again: more fuel changes nothing.  On a FloodWait of 5
    seconds raised by the copy, the relay bot copies once and replies
    that fetching failed; on one raised by the success reply, the
    repository bot replies with the error text. *)
Theorem C3_rate_limit_is_never_waited_out :
  (forall urlparse_path fuel message w db n,
      Sleep n ∉
      trace (run (Relay.save_content urlparse_path (S fuel) message) w db).2) /\
  (forall urlparse_path fuel message w s,
      Relay.save_content urlparse_path (S fuel) message w s =
      Relay.save_content urlparse_path 1 message w s) /\
  (forall query w db n,
      Sleep n ∉ trace (run (Bot.handle_repo_visibility query) w db).2) /\
  (run (Relay.save_content std_urlparse 3
          (sends ["save"; "https://t.me/channel/12"])) throttling relay_db).2 =
    {| store := relay_db;
       trace := [CopyMessage 77 (ChatName "@channel") 12;
                 ReplyText 77 "Error fetching content. Check logs." []] |} /\
  last (trace (run (Bot.handle_repo_visibility (press "repo_public"))
                 throttling sample_db).2) =
    Some (ReplyText 42
            "❌ Error: Telegram says: [420 FLOOD_WAIT_X] - A wait of 5 seconds is required"
            []).
Proof.
  split; [|split; [|split; [|split]]].
  - intros urlparse_path fuel message w db n Hin.
    exact (within_run not_sleep _ w db (Sleep n)
             (RelayProps.save_content_within urlparse_path fuel message) Hin).
  - apply RelayProps.save_content_fuel_irrelevant.
  - intros query w db n Hin.
    exact (within_run not_sleep _ w db (Sleep n)
             (BotProps.handle_repo_visibility_within query) Hin).
  - vm_compute. reflexivity.
  - vm_compute. reflexivity.
Qed.

(** * More of the two bots *)

(** ** Relations a run keeps between the stores *)

Section Preserves.
Context {D : Type} (R : D -> D -> Prop) `{!Reflexive R, !Transitive R}.

Lemma preserves_ret {A} (a : A) : preserves R (ret a).
Proof. intros w s. reflexivity. Qed.

Lemma preserves_raise {A} (e : exn) : preserves (A:=A) R (raise e).
Proof. intros w s. reflexivity. Qed.

Lemma preserves_out_of_fuel {A} : preserves (A:=A) R out_of_fuel.
Proof. intros w s. reflexivity. Qed.

Lemma preserves_get_store : preserves R get_store.
Proof. intros w s. reflexivity. Qed.

Lemma preserves_modify (f : D -> D) :
  (forall d, R d (f d)) -> preserves R (modify f).
Proof. intros Hf w s. apply Hf. Qed.

Lemma preserves_perform (c : call) : preserves R (perform c).
Proof. intros w s. unfold perform. destruct (w _ c); reflexivity. Qed.

Lemma preserves_bind {A B} (m : M D A) (k : A -> M D B) :
  preserves R m -> (forall a, preserves R (k a)) -> preserves R (bind m k).
Proof.
  intros Hm Hk w s. unfold bind. specialize (Hm w s).
  destruct (m w s) as [[a|e|] s']; cbn in *; [|done|done].
  etransitivity; [exact Hm|apply Hk].
Qed.

Lemma preserves_try_except {A} (body : M D A) clauses :
  preserves R body ->
  Forall (fun clause => forall e, preserves R (clause.2 e)) clauses ->
  preserves R (try_except body clauses).
Proof.
  intros Hbody Hclauses w s. unfold try_except. specialize (Hbody w s).
  destruct (body w s) as [[a|e|] s']; cbn in *; [done| |done].
  destruct (find_clause e clauses) as [h|] eqn:Hh; [|done].
  etransitivity; [exact Hbody|].
  clear Hbody. revert Hh.
  induction Hclauses as [|[c h'] rest Hc _ IH]; [done|].
  cbn [find_clause]. destruct (isinstance e c); [|exact IH].
  intros [= <-]. apply Hc.
Qed.

Lemma preserves_reply_text message text keyboard :
  preserves R (reply_text message text keyboard).
Proof.
  apply preserves_bind; [apply preserves_perform|].
  intros _. apply preserves_ret.
Qed.

Lemma preserves_getitem (d : doc) k : preserves R (getitem d k).
Proof.
  unfold getitem. destruct (d !! k); [apply preserves_ret|apply preserves_raise].
Qed.

Lemma preserves_getitem_opt (d : option doc) k : preserves R (getitem_opt d k).
Proof. destruct d; [apply preserves_getitem|apply preserves_raise]. Qed.

Lemma preserves_text_strip message : preserves R (text_strip message).
Proof.
  unfold text_strip.
  destruct (text message); [apply preserves_ret|apply preserves_raise].
Qed.

Lemma preserves_run {A} (m : M D A) w db :
  preserves R m -> R db (store (run m w db).2).
Proof. intros Hm. apply (Hm w {| store := db; trace := [] |}). Qed.
End Preserves.

Create HintDb preserves.

#[global] Hint Resolve preserves_ret preserves_raise preserves_out_of_fuel
  preserves_get_store preserves_perform preserves_reply_text
  preserves_getitem preserves_getitem_opt preserves_text_strip : preserves.

(** Takes a handler apart along its binds, branches and clauses; what is
    left are the writes to the store. *)
Ltac by_structure :=
  repeat first
    [ match goal with
      | |- Reflexive _ => apply _
      | |- Transitive _ => apply _
      | |- Forall _ [] => constructor
      | |- Forall _ (_ :: _) => constructor; [intros ?; cbn [snd]|]
      | |- forall _, _ => intros ?
      | |- preserves _ (match ?x with _ => _ end) => destruct x
      end
    | solve [auto with preserves typeclass_instances]
    | apply preserves_bind
    | apply preserves_try_except
    | apply preserves_modify ].

Lemma update_one_set_other u v fields upsert (c : collection) :
  v <> u -> update_one_set u fields upsert c !! v = c !! v.
Proof.
  intros Hv. unfold update_one_set.
  destruct (c !! u); [|destruct upsert]; try done; by rewrite lookup_insert_ne.
Qed.

Lemma update_one_unset_other u v names (c : collection) :
  v <> u -> update_one_unset u names c !! v = c !! v.
Proof.
  intros Hv. unfold update_one_unset.
  destruct (c !! u); [|done]. by rewrite lookup_insert_ne.
Qed.

Module BotMore.
Import Bot Sample Frames BotProps.

(** ** Whose documents a handler writes *)

#[local] Instance same_outside_refl us : Reflexive (same_outside us).
Proof. by intros db v Hv. Qed.

#[local] Instance same_outside_trans us : Transitive (same_outside us).
Proof.
  intros a b c Hab Hbc v Hv.
  destruct (Hab v Hv) as (-> & -> & ->). by apply Hbc.
Qed.

Lemma same_outside_users us u f db :
  u ∈ us ->
  (forall c v, v <> u -> f c !! v = c !! v) ->
  same_outside us db (on_users f db).
Proof.
  intros Hu Hf v Hv. cbn. repeat split. symmetry. apply Hf. set_solver.
Qed.

Lemma same_outside_sessions us u f db :
  u ∈ us ->
  (forall c v, v <> u -> f c !! v = c !! v) ->
  same_outside us db (on_sessions f db).
Proof.
  intros Hu Hf v Hv. cbn. repeat split. symmetry. apply Hf. set_solver.
Qed.

Lemma same_outside_github_tokens us u f db :
  u ∈ us ->
  (forall c v, v <> u -> f c !! v = c !! v) ->
  same_outside us db (on_github_tokens f db).
Proof.
  intros Hu Hf v Hv. cbn. repeat split. symmetry. apply Hf. set_solver.
Qed.

(** Closes the goal a write leaves: the write is to a user of the list. *)
Ltac write_to_listed :=
  first [ eapply same_outside_users | eapply same_outside_sessions
        | eapply same_outside_github_tokens ];
  cycle 1;
  [ intros; first [ by apply update_one_set_other
                  | by apply update_one_unset_other ]
  | set_solver ].

Lemma get_user_session_preserves (R : DB -> DB -> Prop) `{!Reflexive R} u :
  preserves R (get_user_session u).
Proof. intros w s. rewrite get_user_session_run. reflexivity. Qed.

Lemma get_github_token_preserves (R : DB -> DB -> Prop) `{!Reflexive R} u :
  preserves R (get_github_token u).
Proof. intros w s. rewrite get_github_token_run. reflexivity. Qed.

#[local] Hint Resolve get_user_session_preserves get_github_token_preserves
  : preserves.

Lemma login_steps_frame message :
  preserves (same_outside [from_user message]) (login_steps message).
Proof.
  unfold login_steps, save_user_session, save_github_token.
  by_structure; write_to_listed.
Qed.

Lemma repo_steps_frame message :
  preserves (same_outside [from_user message]) (repo_steps message).
Proof. unfold repo_steps. by_structure; write_to_listed. Qed.

Lemma handle_repo_visibility_frame us query :
  q_from_user query ∈ us ->
  preserves (same_outside us) (handle_repo_visibility query).
Proof. intros Hu. unfold handle_repo_visibility. by_structure; write_to_listed. Qed.

Lemma callback_handler_frame admins query :
  preserves (same_outside [q_from_user query; from_user (q_message query)])
    (callback_handler admins query).
Proof.
  unfold callback_handler, handle_telegram_login_start,
    handle_github_login_start, send_help, send_admin_panel,
    handle_create_repo_start.
  repeat match goal with
         | |- preserves _ (if ?b then _ else _) => destruct b
         end;
    try (apply handle_repo_visibility_frame; set_solver);
    by_structure; write_to_listed.
Qed.

Lemma start_frame admins message :
  preserves (same_outside [from_user message]) (start admins message).
Proof. unfold start. by_structure; write_to_listed. Qed.

(** X1: every handler of bot.py leaves the documents, sessions and
    access tokens of all users other than the sender untouched; a button
    press may also write to the sender of the message that carries the
    button, and to nobody else. *)
Theorem handlers_write_only_their_user
    (admins : list Z) (w : world) (db : DB) :
  (forall message,
      same_outside [from_user message] db
        (store (run (start admins message) w db).2) /\
      same_outside [from_user message] db
        (store (run (login_steps message) w db).2) /\
      same_outside [from_user message] db
        (store (run (repo_steps message) w db).2)) /\
  (forall query,
      same_outside [q_from_user query; from_user (q_message query)] db
        (store (run (callback_handler admins query) w db).2)).
Proof.
  split; [intros message; split; [|split]|intros query].
  - apply (preserves_run (same_outside _)), start_frame.
  - apply (preserves_run (same_outside _)), login_steps_frame.
  - apply (preserves_run (same_outside _)), repo_steps_frame.
  - apply (preserves_run (same_outside _)), callback_handler_frame.
Qed.

(** ** Stored credentials *)

#[local] Instance keeps_credentials_refl : Reflexive keeps_credentials.
Proof. by intros db v. Qed.

#[local] Instance keeps_credentials_trans : Transitive keeps_credentials.
Proof.
  intros a b c Hab Hbc v. destruct (Hab v), (Hbc v). split; auto.
Qed.

#[local] Instance same_credentials_refl : Reflexive same_credentials.
Proof. by intros db. Qed.

#[local] Instance same_credentials_trans : Transitive same_credentials.
Proof. intros a b c [H1 H2] [H3 H4]. split; congruence. Qed.

Lemma same_credentials_keeps a b : same_credentials a b -> keeps_credentials a b.
Proof.
  intros [Hs Ht] v. unfold stored_session, stored_github_token.
  by rewrite Hs, Ht.
Qed.

Lemma upsert_keeps_field u k x (c : collection) v :
  is_Some (c !! v ≫= (.!! k)) ->
  is_Some (update_one_set u [(k, x)] true c !! v ≫= (.!! k)).
Proof.
  intros Hv. destruct (decide (v = u)) as [->|Hne].
  - rewrite update_one_set_upsert_lookup. by eexists.
  - by rewrite update_one_set_other.
Qed.

Lemma login_steps_keeps_credentials message :
  preserves keeps_credentials (login_steps message).
Proof.
  unfold login_steps, save_user_session, save_github_token.
  by_structure;
    try (apply same_credentials_keeps; by split);
    intros ?; unfold stored_session, stored_github_token; cbn;
    split; try done; apply upsert_keeps_field.
Qed.

Lemma repo_steps_same_credentials message :
  preserves same_credentials (repo_steps message).
Proof. unfold repo_steps. by_structure; by split. Qed.

Lemma create_command_same_credentials message :
  preserves same_credentials (create_command message).
Proof. unfold create_command. by_structure. Qed.

Lemma start_same_credentials admins message :
  preserves same_credentials (start admins message).
Proof. unfold start. by_structure; by split. Qed.

Lemma handle_repo_visibility_same_credentials query :
  preserves same_credentials (handle_repo_visibility query).
Proof. unfold handle_repo_visibility. by_structure; by split. Qed.

Lemma callback_handler_same_credentials admins query :
  preserves same_credentials (callback_handler admins query).
Proof.
  unfold callback_handler, handle_telegram_login_start,
    handle_github_login_start, send_help, send_admin_panel,
    handle_create_repo_start.
  repeat match goal with
         | |- preserves _ (if ?b then _ else _) => destruct b
         end;
    try apply handle_repo_visibility_same_credentials;
    by_structure; by split.
Qed.

(** X2: no handler of bot.py ever removes a stored session or access
    token, and only the login steps write one: the start and create
    commands, the wizard steps and every button press leave both
    collections exactly as they were. *)
Theorem credentials_are_never_removed
    (admins : list Z) (w : world) (db : DB) :
  (forall message,
      keeps_credentials db (store (run (login_steps message) w db).2) /\
      same_credentials db (store (run (start admins message) w db).2) /\
      same_credentials db (store (run (create_command message) w db).2) /\
      same_credentials db (store (run (repo_steps message) w db).2)) /\
  (forall query,
      same_credentials db
        (store (run (callback_handler admins query) w db).2)).
Proof.
  split; [intros message; split; [|split; [|split]]|intros query].
  - apply (preserves_run keeps_credentials), login_steps_keeps_credentials.
  - apply (preserves_run same_credentials), start_same_credentials.
  - apply (preserves_run same_credentials), create_command_same_credentials.
  - apply (preserves_run same_credentials), repo_steps_same_credentials.
  - apply (preserves_run same_credentials), callback_handler_same_credentials.
Qed.

(** ** The login steps one by one *)

(** Follows a run past the replies whose answer nothing fixes. *)
Ltac to_the_end :=
  cbn [find_clause store trace length app fst snd];
  repeat (first
    [ any_answer
    | match goal with
      | |- context [if isinstance ?e ?c then _ else _] =>
          destruct (isinstance e c)
      end ];
    cbn [find_clause store trace length app fst snd]).

Lemma set_fields_lookup_users db u fields d k x :
  users_collection db !! u = Some d ->
  set_fields fields d !! k = x ->
  field (on_users (update_one_set u fields false) db) u k = x.
Proof.
  intros Hd Hk. unfold field, on_users. cbn [users_collection].
  by rewrite (update_one_set_lookup _ _ _ _ _ Hd).
Qed.

(** X3: in the [phone] step, once the session has started and the code
    was requested, the user's document holds the step [code], the
    trimmed phone number and the hash the platform returned, whatever
    becomes of the confirmation message; no credential is written. *)
Theorem phone_step_requests_code
    (w : world) (db : DB) (message : Message) (d : doc)
    (t r0 phone_code_hash : string) :
  users_collection db !! from_user message = Some d ->
  d !! "login_step" = Some (VStr "phone") ->
  text message = Some t ->
  w 0%nat (ClientStart (Py.strip t)) = Ok r0 ->
  w 1%nat (SendCode (Py.strip t)) = Ok phone_code_hash ->
  let r := run (login_steps message) w db in
  field (store r.2) (from_user message) "login_step" = Some (VStr "code") /\
  field (store r.2) (from_user message) "phone" = Some (VStr (Py.strip t)) /\
  field (store r.2) (from_user message) "phone_code_hash"
    = Some (VStr phone_code_hash) /\
  same_credentials db (store r.2).
Proof.
  intros Hd Hstep Ht Hw0 Hw1 r.
  assert (Hstore : store r.2 =
    on_users (update_one_set (from_user message)
      [("login_step", VStr "code"); ("phone", VStr (Py.strip t));
       ("phone_code_hash", VStr phone_code_hash)] false) db).
  { subst r. unfold login_steps. unfold_monad. cbn [store trace].
    rewrite Hd, Hstep, Ht.
    rewrite bool_decide_eq_true_2 by reflexivity.
    cbn [length app trace store]. rewrite Hw0.
    cbn [length app trace store]. rewrite Hw1.
    to_the_end; reflexivity. }
  rewrite Hstore.
  repeat split; apply (set_fields_lookup_users _ _ _ d); auto;
    cbn; by simplify_map_eq.
Qed.

(** A phone number sent in the [phone] step. *)
Lemma phone_step_requests_code_witness :
  let r := run (login_steps (says " +15550100 ")) obliging (in_step "phone" []) in
  field (store r.2) 42 "login_step" = Some (VStr "code") /\
  field (store r.2) 42 "phone" = Some (VStr "+15550100") /\
  field (store r.2) 42 "phone_code_hash" = Some (VStr "ok") /\
  same_credentials (in_step "phone" []) (store r.2).
Proof.
  exact (phone_step_requests_code obliging (in_step "phone" [])
           (says " +15550100 ")
           {[ "user_id" := VInt 42; "login_step" := VStr "phone" ]}
           " +15550100 " "ok" "ok" eq_refl eq_refl eq_refl eq_refl eq_refl).
Defined.

(** X4: in the [code] step, when the sign-in asks for the second factor
    the step becomes [password], the phone number and the hash stay, the
    user is asked for the password and no session is stored; when the
    code is refused as invalid the store is left as it was and the user
    is told to try again. *)
Theorem code_step_without_success
    (w : world) (db : DB) (message : Message) (d : doc) (t : string)
    (phone phone_code_hash : value) (e : exn) :
  users_collection db !! from_user message = Some d ->
  d !! "login_step" = Some (VStr "code") ->
  d !! "phone" = Some phone ->
  d !! "phone_code_hash" = Some phone_code_hash ->
  text message = Some t ->
  w 0%nat (SignIn phone phone_code_hash (Py.strip t)) = Fails e ->
  let r := run (login_steps message) w db in
  let u := from_user message in
  (cls e = SessionPasswordNeeded ->
   field (store r.2) u "login_step" = Some (VStr "password") /\
   field (store r.2) u "phone" = Some phone /\
   field (store r.2) u "phone_code_hash" = Some phone_code_hash /\
   same_credentials db (store r.2) /\
   trace r.2 = [SignIn phone phone_code_hash (Py.strip t);
                ReplyText (chat message) "🔒 2FA enabled. Send your password." []])
  /\
  (cls e = PhoneCodeInvalid ->
   store r.2 = db /\
   trace r.2 = [SignIn phone phone_code_hash (Py.strip t);
                ReplyText (chat message) "❌ Invalid code. Try again." []]).
Proof.
  intros Hd Hstep Hphone Hhash Ht Hw r u. subst r u.
  unfold login_steps. unfold_monad. cbn [store trace].
  rewrite Hd, Hstep, Ht.
  rewrite bool_decide_eq_false_2 by discriminate.
  rewrite bool_decide_eq_true_2 by reflexivity.
  rewrite Hphone, Hhash. cbn [length app trace store]. rewrite Hw.
  cbn [find_clause]. split; intros Hcls.
  - rewrite <- Hcls, isinstance_own_class.
    any_answer; cbn [store trace length app snd];
      (split; [|split; [|split; [|split]]]);
      try reflexivity; try (by split);
      apply (set_fields_lookup_users _ _ _ d); auto; cbn; by simplify_map_eq.
  - assert (isinstance e SessionPasswordNeeded = false) as ->
      by (destruct e as [[] ? ?]; done).
    rewrite <- Hcls, isinstance_own_class.
    any_answer; by split.
Qed.

(** A code sent when the account has a second factor. *)
Lemma code_step_without_success_witness :
  let db := in_step "code"
              [("phone", VStr "+15550100"); ("phone_code_hash", VStr "hash1")] in
  let second_factor :=
    {| cls := SessionPasswordNeeded; str := "SESSION_PASSWORD_NEEDED";
       wait := 0 |} in
  let w : world := fun _ c =>
    match c with
    | SignIn _ _ _ => Fails second_factor
    | _ => Ok "ok"
    end in
  let r := run (login_steps (says "12345")) w db in
  field (store r.2) 42 "login_step" = Some (VStr "password") /\
  field (store r.2) 42 "phone" = Some (VStr "+15550100").
Proof.
  intros db second_factor w r.
  pose proof (code_step_without_success w db (says "12345")
                {[ "user_id" := VInt 42; "login_step" := VStr "code";
                   "phone" := VStr "+15550100";
                   "phone_code_hash" := VStr "hash1" ]}
                "12345" (VStr "+15550100") (VStr "hash1") second_factor) as H.
  destruct H as [H _]; try (vm_compute; reflexivity).
  destruct H as (Hstep & Hphone & _); [reflexivity|]. by split.
Defined.

(** X5: in the [password] step every failure of the password check, of
    whatever class, is reported as an error and leaves the store as it
    was: the step is still [password] and no session is stored. *)
Theorem password_step_failure
    (w : world) (db : DB) (message : Message) (d : doc) (t : string)
    (phone : value) (e : exn) :
  users_collection db !! from_user message = Some d ->
  d !! "login_step" = Some (VStr "password") ->
  d !! "phone" = Some phone ->
  text message = Some t ->
  w 0%nat (CheckPassword (Py.strip t)) = Fails e ->
  (run (login_steps message) w db).2 =
  {| store := db;
     trace := [CheckPassword (Py.strip t);
               ReplyText (chat message) ("❌ Error: " +:+ str e) []] |}.
Proof.
  intros Hd Hstep Hphone Ht Hw.
  unfold login_steps. unfold_monad. cbn [store trace].
  rewrite Hd, Hstep, Ht.
  rewrite !bool_decide_eq_false_2 by discriminate.
  rewrite bool_decide_eq_true_2 by reflexivity.
  rewrite Hphone. cbn [length app trace store]. rewrite Hw.
  cbn [find_clause]. rewrite isinstance_Exception. any_answer; reflexivity.
Qed.

(** A wrong password. *)
Lemma password_step_failure_witness :
  let w : world := fun _ c =>
    match c with
    | CheckPassword _ =>
        Fails {| cls := RPCError; str := "PASSWORD_HASH_INVALID"; wait := 0 |}
    | _ => Ok "ok"
    end in
  (run (login_steps (says "hunter2")) w
     (in_step "password" [("phone", VStr "+15550100")])).2 =
  {| store := in_step "password" [("phone", VStr "+15550100")];
     trace := [CheckPassword "hunter2";
               ReplyText 42 "❌ Error: PASSWORD_HASH_INVALID" []] |}.
Proof.
  intros w.
  exact (password_step_failure w
           (in_step "password" [("phone", VStr "+15550100")]) (says "hunter2")
           {[ "user_id" := VInt 42; "login_step" := VStr "password";
              "phone" := VStr "+15550100" ]}
           "hunter2" (VStr "+15550100")
           {| cls := RPCError; str := "PASSWORD_HASH_INVALID"; wait := 0 |}
           eq_refl eq_refl eq_refl eq_refl eq_refl).
Defined.

(** X6: in the [github_token] step, once the validating call returns, the
    trimmed text is the stored access token and [login_step] is gone,
    whatever becomes of the confirmation message; the other fields of
    the user's document and the stored sessions are left alone. *)
Theorem github_token_step_success
    (w : world) (db : DB) (message : Message) (d : doc) (t r0 : string) :
  users_collection db !! from_user message = Some d ->
  d !! "login_step" = Some (VStr "github_token") ->
  text message = Some t ->
  w 0%nat (GetUserLogin (Py.strip t)) = Ok r0 ->
  let r := run (login_steps message) w db in
  let u := from_user message in
  stored_github_token (store r.2) u = Some (VStr (Py.strip t)) /\
  field (store r.2) u "login_step" = None /\
  (forall k, k <> "login_step" -> field (store r.2) u k = d !! k) /\
  sessions_collection (store r.2) = sessions_collection db.
Proof.
  intros Hd Hstep Ht Hw r u.
  assert (Hstore : store r.2 =
    on_users (update_one_unset u ["login_step"])
      (on_github_tokens
         (update_one_set u [("token", VStr (Py.strip t))] true) db)).
  { subst r u. unfold login_steps, save_github_token. unfold_monad.
    cbn [store trace]. rewrite Hd, Hstep, Ht.
    rewrite !bool_decide_eq_false_2 by discriminate.
    rewrite bool_decide_eq_true_2 by reflexivity.
    cbn [length app trace store]. rewrite Hw.
    to_the_end; reflexivity. }
  rewrite Hstore. split; [apply update_one_set_upsert_lookup|].
  unfold field, on_users. cbn [users_collection on_github_tokens].
  rewrite (update_one_unset_lookup _ _ _ _ Hd). cbn.
  split; [by simplify_map_eq|]. split; [|reflexivity].
  intros k Hk. by simplify_map_eq.
Qed.

(** A token the hosting platform accepts. *)
Lemma github_token_step_success_witness :
  let r := run (login_steps (says " ghp_fresh ")) obliging
             (in_step "github_token" []) in
  stored_github_token (store r.2) 42 = Some (VStr "ghp_fresh") /\
  field (store r.2) 42 "login_step" = None.
Proof.
  pose proof (github_token_step_success obliging (in_step "github_token" [])
                (says " ghp_fresh ")
                {[ "user_id" := VInt 42; "login_step" := VStr "github_token" ]}
                " ghp_fresh " "ok" eq_refl eq_refl eq_refl eq_refl)
    as (Htoken & Hstep & _).
  by split.
Defined.

(** ** Messages outside a step *)

Lemma field_None db u k :
  field db u k = None ->
  users_collection db !! u = None \/
  exists d, users_collection db !! u = Some d /\ d !! k = None.
Proof.
  unfold field. destruct (users_collection db !! u) as [d|]; [|by left].
  intros H. right. by exists d.
Qed.

(** X7: a text message from a user who is in no flow does nothing: with
    no [login_step] the login handler, and with no [repo_step] the wizard
    handler, makes no call and leaves the store as it is.  The same holds
    for a step the handler does not know; in particular a text sent
    during the [visibility] step, which only a button answers, is
    ignored. *)
Theorem idle_user_is_ignored (w : world) (db : DB) (message : Message) :
  let u := from_user message in
  let nothing := (Ret tt, {| store := db; trace := [] |}) in
  (field db u "login_step" = None ->
   run (login_steps message) w db = nothing) /\
  (field db u "repo_step" = None ->
   run (repo_steps message) w db = nothing) /\
  (forall step,
      field db u "login_step" = Some step ->
      step ∉ [VStr "phone"; VStr "code"; VStr "password"; VStr "github_token"] ->
      run (login_steps message) w db = nothing) /\
  (forall step,
      field db u "repo_step" = Some step ->
      step ∉ [VStr "name"; VStr "description"] ->
      run (repo_steps message) w db = nothing).
Proof.
  intros u nothing. subst u nothing.
  split; [|split; [|split]].
  - intros H. unfold run, login_steps. rewrite bind_get_store. cbn [store].
    by destruct (field_None _ _ _ H) as [->|(d & -> & ->)].
  - intros H. unfold run, repo_steps. rewrite bind_get_store. cbn [store].
    by destruct (field_None _ _ _ H) as [->|(d & -> & ->)].
  - intros step H Hstep. unfold run, login_steps.
    rewrite bind_get_store. cbn [store]. unfold field in H.
    destruct (users_collection db !! from_user message) as [d|]; [|done].
    cbn in H. rewrite H.
    rewrite !bool_decide_eq_false_2; [done|intros ->; set_solver..].
  - intros step H Hstep. unfold run, repo_steps.
    rewrite bind_get_store. cbn [store]. unfold field in H.
    destruct (users_collection db !! from_user message) as [d|]; [|done].
    cbn in H. rewrite H.
    rewrite !bool_decide_eq_false_2; [done|intros ->; set_solver..].
Qed.

(** A text sent while the visibility buttons are shown. *)
Lemma idle_user_is_ignored_witness :
  run (repo_steps (says "public please")) obliging sample_db =
  (Ret tt, {| store := sample_db; trace := [] |}).
Proof.
  apply (proj2 (proj2 (proj2
           (idle_user_is_ignored obliging sample_db (says "public please"))))
           (VStr "visibility")).
  - reflexivity.
  - intros H. repeat (apply elem_of_cons in H as [H|H]; [discriminate|]).
    inversion H.
Defined.

(** X8: a message that carries no text (a photo, a sticker) stops every
    step that reads the text with an AttributeError before any call is
    made and before anything is written. *)
Theorem message_without_text_stops_the_step
    (w : world) (db : DB) (message : Message) (d : doc) (step : string) :
  users_collection db !! from_user message = Some d ->
  text message = None ->
  let stopped :=
    (Raise none_has_no_strip, {| store := db; trace := [] |}) in
  (d !! "login_step" = Some (VStr step) ->
   step ∈ ["phone"; "code"; "password"; "github_token"] ->
   run (login_steps message) w db = stopped) /\
  (d !! "repo_step" = Some (VStr step) ->
   step ∈ ["name"; "description"] ->
   run (repo_steps message) w db = stopped).
Proof.
  intros Hd Ht stopped. subst stopped. split; intros Hstep Hin.
  - unfold run, login_steps. rewrite bind_get_store. cbn [store].
    rewrite Hd, Hstep. unfold text_strip, bind. rewrite Ht.
    repeat (apply elem_of_cons in Hin as [->|Hin];
            [repeat (rewrite bool_decide_eq_false_2 by discriminate);
             by rewrite bool_decide_eq_true_2|]).
    inversion Hin.
  - unfold run, repo_steps. rewrite bind_get_store. cbn [store].
    rewrite Hd, Hstep. unfold text_strip, bind. rewrite Ht.
    repeat (apply elem_of_cons in Hin as [->|Hin];
            [repeat (rewrite bool_decide_eq_false_2 by discriminate);
             by rewrite bool_decide_eq_true_2|]).
    inversion Hin.
Qed.

(** A photo sent where the phone number is expected. *)
Lemma message_without_text_witness :
  run (login_steps {| from_user := 42; chat := 42; text := None; command := [] |})
    obliging (in_step "phone" []) =
  (Raise none_has_no_strip, {| store := in_step "phone" []; trace := [] |}).
Proof.
  apply (proj1 (message_without_text_stops_the_step obliging
                  (in_step "phone" [])
                  {| from_user := 42; chat := 42; text := None; command := [] |}
                  {[ "user_id" := VInt 42; "login_step" := VStr "phone" ]}
                  "phone" eq_refl eq_refl)).
  - reflexivity.
  - repeat constructor.
Defined.

(** ** Starting a login *)

Lemma telegram_login_start_run (w : world) (db : DB) (message : Message) s :
  session_of db (from_user message) = Some s ->
  run (handle_telegram_login_start message) w db =
  (if truthy s then
     reply_text message "You are already logged in to Telegram. Re-login?"
       [("🔄 Re-Login", "telegram_relogin_confirm"); ("🔙 Back", "start")]
   else
     reply_text message
       ("🔑 **Telegram Login Process:**" +:+ nl +:+ nl +:+
        "1. Send your phone number (e.g., +1234567890)." +:+ nl +:+
        "2. Receive a code on Telegram." +:+ nl +:+
        "3. Reply with the code." +:+ nl +:+
        "4. If 2FA is enabled, provide your password.") [] ;;
     modify (on_users
       (update_one_set (from_user message) [("login_step", VStr "phone")] true)))
    w {| store := db; trace := [] |}.
Proof.
  intros Hs. unfold run, handle_telegram_login_start.
  unfold bind at 1. rewrite get_user_session_run. cbn [store].
  by rewrite Hs.
Qed.

Lemma github_login_start_run (w : world) (db : DB) (message : Message) t :
  token_of db (from_user message) = Some t ->
  run (handle_github_login_start message) w db =
  (if truthy t then
     reply_text message "You are already logged in to GitHub. Re-login?"
       [("🔄 Re-Login GitHub", "github_relogin_confirm"); ("🔙 Back", "start")]
   else
     reply_text message
       ("🔐 **GitHub Login Process:**" +:+ nl +:+ nl +:+
        "1. Send your GitHub Personal Access Token." +:+ nl +:+
        "   - Get it from github.com > Settings > Developer settings > Personal access tokens." +:+ nl +:+
        "   - Ensure it has 'repo' scope.") [] ;;
     modify (on_users
       (update_one_set (from_user message)
          [("login_step", VStr "github_token")] true)))
    w {| store := db; trace := [] |}.
Proof.
  intros Ht. unfold run, handle_github_login_start.
  unfold bind at 1. rewrite get_github_token_run. cbn [store].
  by rewrite Ht.
Qed.

(** X9: the two login buttons.  For a user with a usable stored
    credential the re-login question is sent and nothing is written.
    Otherwise the instructions are sent first and the step is written
    after them, creating the user's document if there is none: when the
    instructions are delivered the step is [phone] (or [github_token]),
    and when sending them fails nothing is written at all. *)
Theorem login_start_writes_step_after_instructions
    (w : world) (db : DB) (message : Message) :
  let u := from_user message in
  let telegram := run (handle_telegram_login_start message) w db in
  let github := run (handle_github_login_start message) w db in
  (forall s, session_of db u = Some s -> truthy s = true ->
     telegram.2 =
     {| store := db;
        trace := [ReplyText (chat message)
                    "You are already logged in to Telegram. Re-login?"
                    [("🔄 Re-Login", "telegram_relogin_confirm");
                     ("🔙 Back", "start")]] |}) /\
  (forall s r0, session_of db u = Some s -> truthy s = false ->
     (forall c, w 0%nat c = Ok r0) ->
     field (store telegram.2) u "login_step" = Some (VStr "phone")) /\
  (forall s e, session_of db u = Some s -> truthy s = false ->
     (forall c, w 0%nat c = Fails e) ->
     telegram.1 = Raise e /\ store telegram.2 = db) /\
  (forall t, token_of db u = Some t -> truthy t = true ->
     github.2 =
     {| store := db;
        trace := [ReplyText (chat message)
                    "You are already logged in to GitHub. Re-login?"
                    [("🔄 Re-Login GitHub", "github_relogin_confirm");
                     ("🔙 Back", "start")]] |}) /\
  (forall t r0, token_of db u = Some t -> truthy t = false ->
     (forall c, w 0%nat c = Ok r0) ->
     field (store github.2) u "login_step" = Some (VStr "github_token")) /\
  (forall t e, token_of db u = Some t -> truthy t = false ->
     (forall c, w 0%nat c = Fails e) ->
     github.1 = Raise e /\ store github.2 = db).
Proof.
  intros u telegram github. subst u telegram github.
  split; [|split; [|split; [|split; [|split]]]].
  - intros s0 Hs Ht. rewrite (telegram_login_start_run _ _ _ _ Hs), Ht.
    by rewrite reply_text_effect.
  - intros s0 r0 Hs Ht Hw. rewrite (telegram_login_start_run _ _ _ _ Hs), Ht.
    unfold_monad. cbn [store trace length]. rewrite Hw. cbn.
    apply update_one_set_upsert_lookup.
  - intros s0 e Hs Ht Hw. rewrite (telegram_login_start_run _ _ _ _ Hs), Ht.
    unfold_monad. cbn [store trace length]. rewrite Hw. by split.
  - intros t Hs Ht. rewrite (github_login_start_run _ _ _ _ Hs), Ht.
    by rewrite reply_text_effect.
  - intros t r0 Hs Ht Hw. rewrite (github_login_start_run _ _ _ _ Hs), Ht.
    unfold_monad. cbn [store trace length]. rewrite Hw. cbn.
    apply update_one_set_upsert_lookup.
  - intros t e Hs Ht Hw. rewrite (github_login_start_run _ _ _ _ Hs), Ht.
    unfold_monad. cbn [store trace length]. rewrite Hw. by split.
Qed.

(** A user the bot has never seen presses the Telegram login button. *)
Lemma login_start_witness :
  let nobody :=
    {| users_collection := ∅; sessions_collection := ∅;
       github_tokens_collection := ∅ |} in
  field (store (run (handle_telegram_login_start (says "hello")) obliging
                  nobody).2) 42 "login_step" = Some (VStr "phone").
Proof.
  intros nobody.
  exact (proj1 (proj2 (login_start_writes_step_after_instructions obliging
                         nobody (says "hello")))
           VNone "ok" eq_refl eq_refl (fun _ => eq_refl)).
Defined.

(** ** The wizard from the first press to the creation *)

Lemma create_press_store (admins : list Z) (w : world) (db : DB)
    (query : CallbackQuery) :
  q_data query = "create_repo" ->
  (run (callback_handler admins query) w db).2 =
  {| store := on_users
       (update_one_set (from_user (q_message query))
          [("repo_step", VStr "name")] false) db;
     trace := [ReplyText (chat (q_message query))
                 ("📁 **Create Repository:**" +:+ nl +:+ nl +:+
                  "Send the repository name (e.g., my-new-repo):") []] |}.
Proof.
  intros Hdata. unfold run, callback_handler. rewrite Hdata.
  cbn [String.eqb Ascii.eqb Bool.eqb]. unfold handle_create_repo_start.
  unfold bind at 1. unfold modify at 1. cbn [store trace].
  by rewrite reply_text_effect.
Qed.

(** X10: the press that enters the wizard writes without creating: for
    a user who has no document the name is asked for but no step is
    recorded, so the text the user then sends is ignored. *)
Theorem wizard_needs_a_user_document
    (admins : list Z) (w : world) (db : DB) (query : CallbackQuery) :
  q_data query = "create_repo" ->
  users_collection db !! from_user (q_message query) = None ->
  let r := run (callback_handler admins query) w db in
  store r.2 = db /\
  trace r.2 =
    [ReplyText (chat (q_message query))
       ("📁 **Create Repository:**" +:+ nl +:+ nl +:+
        "Send the repository name (e.g., my-new-repo):") []] /\
  forall (w' : world) (message : Message),
    from_user message = from_user (q_message query) ->
    run (repo_steps message) w' (store r.2) =
    (Ret tt, {| store := db; trace := [] |}).
Proof.
  intros Hdata Hnone r. subst r.
  rewrite (create_press_store admins w db query Hdata). cbn [store trace snd].
  assert (Hsame : on_users (update_one_set (from_user (q_message query))
                    [("repo_step", VStr "name")] false) db = db).
  { destruct db as [us ss ts]. unfold on_users, update_one_set. cbn in *.
    by rewrite Hnone. }
  rewrite Hsame. split; [done|]. split; [done|].
  intros w' message Huser. unfold run, repo_steps.
  rewrite bind_get_store. cbn [store]. by rewrite Huser, Hnone.
Qed.

(** The button pressed by a user the bot holds no document for. *)
Lemma wizard_needs_a_user_document_witness :
  let nobody :=
    {| users_collection := ∅; sessions_collection := ∅;
       github_tokens_collection := ∅ |} in
  store (run (callback_handler [] (press "create_repo")) obliging nobody).2
  = nobody.
Proof.
  intros nobody.
  exact (proj1 (wizard_needs_a_user_document [] obliging nobody
                  (press "create_repo") eq_refl eq_refl)).
Defined.

Lemma name_step_store (w : world) (db : DB) (message : Message)
    (d : doc) (t : string) :
  users_collection db !! from_user message = Some d ->
  d !! "repo_step" = Some (VStr "name") ->
  text message = Some t ->
  store (run (repo_steps message) w db).2 =
  on_users
    (update_one_set (from_user message)
       [("repo_name", VStr (Py.strip t)); ("repo_step", VStr "description")]
       false) db.
Proof.
  intros Hd Hstep Ht. unfold run, repo_steps. unfold_monad.
  cbn [store trace]. rewrite Hd, Hstep, Ht.
  rewrite bool_decide_eq_true_2 by reflexivity.
  any_answer; reflexivity.
Qed.

(** X11: the wizard end to end, for the user it is kept for.  The press
    that enters the wizard marks the document of the user the message
    carrying the button is from, not of the user who pressed: every
    other document, the presser's included when the two differ, is as
    before.  When the marked user has a document and a stored token and
    then sends a name, a description other than the [none] sentinel and
    the press of a visibility button, this leads, whatever the messaging
    platform answers along the way, to a creation call with that token,
    the trimmed name, the trimmed description, the visibility of the
    button pressed and auto-initialisation. *)
Theorem wizard_reaches_creation_with_the_collected_draft
    (admins : list Z) (w1 w2 w3 w4 : world) (db : DB) (d : doc)
    (enter choose : CallbackQuery) (naming describing : Message)
    (name description : string) (token : value) :
  let u := from_user (q_message enter) in
  q_data enter = "create_repo" ->
  from_user naming = u ->
  from_user describing = u ->
  q_from_user choose = u ->
  users_collection db !! u = Some d ->
  token_of db u = Some token ->
  text naming = Some name ->
  text describing = Some description ->
  Py.lower (Py.strip description) <> "none" ->
  let db1 := store (run (callback_handler admins enter) w1 db).2 in
  let db2 := store (run (repo_steps naming) w2 db1).2 in
  let db3 := store (run (repo_steps describing) w3 db2).2 in
  (forall other : Z,
      other <> u ->
      users_collection db1 !! other = users_collection db !! other) /\
  field db1 u "repo_step" = Some (VStr "name") /\
  head (trace (run (handle_repo_visibility choose) w4 db3).2) =
  Some (CreateRepo token (VStr (Py.strip name)) (VStr (Py.strip description))
          (String.eqb (q_data choose) "repo_private") true).
Proof.
  intros u Henter Hu2 Hu3 Hu4 Hd Htoken Hname Hdescription Hnone db1 db2 db3.
  subst db3 db2 db1.
  rewrite (create_press_store admins w1 db enter Henter). cbn [store snd].
  fold u.
  set (d1 := set_fields [("repo_step", VStr "name")] d).
  set (db1 := on_users _ db).
  assert (Hd1 : users_collection db1 !! u = Some d1).
  { exact (update_one_set_lookup _ _ _ _ _ Hd). }
  split; [|split].
  { intros other Hother. subst db1. unfold on_users. cbn [users_collection].
    by apply update_one_set_other. }
  { unfold field. rewrite Hd1. subst d1. cbn. by simplify_map_eq. }
  rewrite <- Hu2 in Hd1.
  rewrite (name_step_store w2 db1 naming d1 name Hd1);
    [|subst d1; cbn; by simplify_map_eq|done].
  set (d2 := set_fields [("repo_name", VStr (Py.strip name));
                         ("repo_step", VStr "description")] d1).
  set (db2 := on_users _ db1).
  assert (Hd2 : users_collection db2 !! from_user describing = Some d2).
  { rewrite Hu3, <- Hu2. exact (update_one_set_lookup _ _ _ _ _ Hd1). }
  rewrite (description_step_store w3 db2 describing d2 description Hd2);
    [|subst d2; cbn; by simplify_map_eq|done].
  apply String.eqb_neq in Hnone. rewrite Hnone. cbn [negb].
  set (d3 := set_fields [("repo_description", VStr (Py.strip description));
                         ("repo_step", VStr "visibility")] d2).
  set (db3 := on_users _ db2).
  assert (Hd3 : users_collection db3 !! q_from_user choose = Some d3).
  { rewrite Hu4, <- Hu3. exact (update_one_set_lookup _ _ _ _ _ Hd2). }
  apply (visibility_first_call w4 db3 choose d3); auto.
  - subst d3 d2 d1. cbn. by simplify_map_eq.
  - subst d3. cbn. by simplify_map_eq.
  - rewrite Hu4. exact Htoken.
Qed.

(** The draft [demo] / [A demo repo] / private of a logged-in user. *)
Lemma wizard_reaches_creation_witness :
  let logged_in :=
    on_users (update_one_unset 42 ["repo_step"; "repo_name"; "repo_description"])
      sample_db in
  let db1 := store (run (callback_handler [] (press "create_repo")) obliging
                      logged_in).2 in
  let db2 := store (run (repo_steps (says "demo")) obliging db1).2 in
  let db3 := store (run (repo_steps (says "A demo repo")) obliging db2).2 in
  head (trace (run (handle_repo_visibility (press "repo_private")) obliging
                 db3).2) =
  Some (CreateRepo (VStr "ghp_sample") (VStr "demo") (VStr "A demo repo")
          true true).
Proof.
  exact (proj2 (proj2 (wizard_reaches_creation_with_the_collected_draft
           [] obliging obliging obliging obliging
           (on_users (update_one_unset 42
              ["repo_step"; "repo_name"; "repo_description"]) sample_db)
           {[ "user_id" := VInt 42 ]}
           (press "create_repo") (press "repo_private")
           (says "demo") (says "A demo repo") "demo" "A demo repo"
           (VStr "ghp_sample")
           eq_refl eq_refl eq_refl eq_refl eq_refl eq_refl eq_refl eq_refl
           ltac:(discriminate)))).
Defined.

(** ** The visibility step, case by case *)

(** X12: a visibility button pressed without a complete draft creates
    nothing.  The two draft fields are read before the try block, so with
    no document for the user the press stops with a TypeError, with no
    [repo_name] with KeyError('repo_name'), with a name but no
    description yet with KeyError('repo_description'); in each case no
    call is made, nothing is sent and the store is left as it is. *)
Theorem press_without_draft_creates_nothing
    (w : world) (db : DB) (query : CallbackQuery) :
  let r := run (handle_repo_visibility query) w db in
  let stopped e := r = (Raise e, {| store := db; trace := [] |}) in
  (users_collection db !! q_from_user query = None ->
   stopped none_not_subscriptable) /\
  (forall d, users_collection db !! q_from_user query = Some d ->
     d !! "repo_name" = None -> stopped (key_error "repo_name")) /\
  (forall d, users_collection db !! q_from_user query = Some d ->
     is_Some (d !! "repo_name") -> d !! "repo_description" = None ->
     stopped (key_error "repo_description")).
Proof.
  intros r stopped. subst r stopped. cbn beta.
  unfold run, handle_repo_visibility. rewrite bind_get_store. cbn [store].
  split; [|split].
  - intros ->. reflexivity.
  - intros d -> Hname. unfold_monad. by rewrite Hname.
  - intros d -> [name Hname] Hdescription. unfold_monad.
    by rewrite Hname, Hdescription.
Qed.

(** A visibility button pressed right after the name was given. *)
Lemma press_without_draft_witness :
  let named :=
    on_users (update_one_set 42 [("repo_step", VStr "description")] false
              ∘ update_one_unset 42 ["repo_description"]) sample_db in
  run (handle_repo_visibility (press "repo_public")) obliging named =
  (Raise (key_error "repo_description"), {| store := named; trace := [] |}).
Proof.
  intros named.
  apply (proj2 (proj2 (press_without_draft_creates_nothing obliging named
                         (press "repo_public")))
           {[ "user_id" := VInt 42; "repo_step" := VStr "description";
              "repo_name" := VStr "my-new-repo" ]}); vm_compute; eauto.
Defined.

(** X13: whatever exception the creation call raises, the store is left
    as it was and exactly one message follows: "Failed to create
    repository" with the exception text for a GithubException, "Error"
    with the exception text for anything else, a rate-limit signal
    included. *)
Theorem failed_creation_changes_nothing
    (w : world) (db : DB) (query : CallbackQuery) (d : doc)
    (name description token : value) (e : exn) :
  users_collection db !! q_from_user query = Some d ->
  d !! "repo_name" = Some name ->
  d !! "repo_description" = Some description ->
  token_of db (q_from_user query) = Some token ->
  let creation :=
    CreateRepo token name description
      (String.eqb (q_data query) "repo_private") true in
  w 0%nat creation = Fails e ->
  (run (handle_repo_visibility query) w db).2 =
  {| store := db;
     trace :=
       [creation;
        ReplyText (chat (q_message query))
          ((if isinstance e GithubException
            then "❌ Failed to create repository: " else "❌ Error: ")
           +:+ str e) []] |}.
Proof.
  intros Hd Hname Hdescription Htoken creation Hw. subst creation.
  unfold run, handle_repo_visibility. unfold_monad. cbn [store trace].
  rewrite Hd, Hname, Hdescription.
  rewrite get_github_token_run. cbn [store]. rewrite Htoken.
  cbn [length app trace store]. rewrite Hw. cbn [find_clause].
  destruct (isinstance e GithubException).
  - any_answer; reflexivity.
  - rewrite isinstance_Exception. any_answer; reflexivity.
Qed.

(** The hosting platform cannot be reached. *)
Lemma failed_creation_witness :
  let unreachable :=
    {| cls := Exception; str := "Connection refused"; wait := 0 |} in
  let w : world := fun _ c =>
    match c with
    | CreateRepo _ _ _ _ _ => Fails unreachable
    | _ => Ok "ok"
    end in
  (run (handle_repo_visibility (press "repo_private")) w sample_db).2 =
  {| store := sample_db;
     trace := [CreateRepo (VStr "ghp_sample") (VStr "my-new-repo") VNone
                 true true;
               ReplyText 42 "❌ Error: Connection refused" []] |}.
Proof.
  intros unreachable w.
  exact (failed_creation_changes_nothing w sample_db (press "repo_private")
           sample_draft (VStr "my-new-repo") VNone (VStr "ghp_sample")
           unreachable eq_refl eq_refl eq_refl eq_refl eq_refl).
Defined.

(** X14: when the creation returns and the report is delivered, the
    handler returns, the draft is gone from the user's document and the
    one message sent names the repository, gives the address the
    platform returned and states the visibility chosen. *)
Theorem created_repository_is_reported
    (w : world) (db : DB) (query : CallbackQuery) (d : doc)
    (name description token : value) (url r1 : string) :
  users_collection db !! q_from_user query = Some d ->
  d !! "repo_name" = Some name ->
  d !! "repo_description" = Some description ->
  token_of db (q_from_user query) = Some token ->
  let is_private := String.eqb (q_data query) "repo_private" in
  let creation := CreateRepo token name description is_private true in
  let report :=
    ReplyText (chat (q_message query))
      ("✅ Repository created successfully!" +:+ nl +:+
       "Name: " +:+ str_of_value name +:+ nl +:+
       "URL: " +:+ url +:+ nl +:+
       "Visibility: " +:+ (if is_private then "Private" else "Public")) [] in
  w 0%nat creation = Ok url ->
  w 1%nat report = Ok r1 ->
  run (handle_repo_visibility query) w db =
  (Ret tt,
   {| store := on_users (update_one_unset (q_from_user query)
                 ["repo_step"; "repo_name"; "repo_description"]) db;
      trace := [creation; report] |}).
Proof.
  intros Hd Hname Hdescription Htoken is_private creation report Hw0 Hw1.
  subst is_private creation report.
  unfold run, handle_repo_visibility. unfold_monad. cbn [store trace].
  rewrite Hd, Hname, Hdescription.
  rewrite get_github_token_run. cbn [store]. rewrite Htoken.
  cbn [length app trace store]. rewrite Hw0.
  cbn [length app trace store]. by rewrite Hw1.
Qed.

(** The private repository [my-new-repo] of the sample draft. *)
Lemma created_repository_witness :
  let w : world := fun _ c =>
    match c with
    | CreateRepo _ _ _ _ _ => Ok "https://github.com/sample/my-new-repo"
    | _ => Ok "ok"
    end in
  trace (run (handle_repo_visibility (press "repo_private")) w sample_db).2 =
  [CreateRepo (VStr "ghp_sample") (VStr "my-new-repo") VNone true true;
   ReplyText 42
     ("✅ Repository created successfully!" +:+ nl +:+
      "Name: my-new-repo" +:+ nl +:+
      "URL: https://github.com/sample/my-new-repo" +:+ nl +:+
      "Visibility: Private") []].
Proof.
  intros w.
  pose proof (created_repository_is_reported w sample_db (press "repo_private")
                sample_draft (VStr "my-new-repo") VNone (VStr "ghp_sample")
                "https://github.com/sample/my-new-repo" "ok"
                eq_refl eq_refl eq_refl eq_refl eq_refl eq_refl) as H.
  by rewrite H.
Defined.

(** ** Buttons *)

Lemma no_button_not_offered data tr :
  Forall (no_button data) tr -> ~ offers data tr.
Proof.
  intros Hall (chat & text & keyboard & label & Hin & Hbutton).
  rewrite Forall_forall in Hall. specialize (Hall _ Hin). cbn in Hall.
  rewrite forallb_forall in Hall.
  apply list_elem_of_In, Hall in Hbutton. cbn in Hbutton.
  by rewrite String.eqb_refl in Hbutton.
Qed.

#[local] Hint Extern 1 (no_button _ _) => first [exact I | reflexivity] : within.

Lemma get_user_session_within P u : within P (get_user_session u).
Proof.
  unfold get_user_session. apply within_bind; [auto with within|].
  intros db. destruct (_ !! u); auto with within.
Qed.

#[local] Hint Resolve get_user_session_within get_github_token_within : within.

Lemma handle_repo_visibility_shows_no_button data (query : CallbackQuery) :
  within (no_button data) (handle_repo_visibility query).
Proof.
  unfold handle_repo_visibility.
  apply within_bind; [auto with within|]. intros db.
  apply within_bind; [auto with within|]. intros repo_name.
  apply within_bind; [auto with within|]. intros description.
  apply within_try_except.
  - auto 7 with within.
  - intros e h. cbn [find_clause].
    destruct (isinstance e GithubException); [intros [= <-]; auto with within|].
    rewrite isinstance_Exception. intros [= <-]. auto with within.
Qed.

Lemma callback_handler_admin_buttons admins query data :
  data ∈ ["admin_list_users"; "admin_ban"; "admin_unban"; "admin_broadcast"] ->
  q_from_user query ∉ admins ->
  within (no_button data) (callback_handler admins query).
Proof.
  intros Hdata Hadmin. unfold callback_handler, is_admin.
  rewrite bool_decide_eq_false_2 by done.
  unfold handle_telegram_login_start, handle_github_login_start, send_help,
    handle_create_repo_start.
  repeat (apply elem_of_cons in Hdata as [->|Hdata];
          [repeat match goal with
                  | |- within _ (if ?b then _ else _) => destruct b
                  end;
           try apply handle_repo_visibility_shows_no_button;
           repeat first
             [ solve [auto with within]
             | apply within_bind; [|intros ?]
             | match goal with
               | |- within _ (if ?b then _ else _) => destruct b
               end ]|]).
  inversion Hdata.
Qed.

(** X15: the admin panel is shown to admins only.  The /admin command
    from anyone else is answered "You are not an admin." and nothing
    more; no button press by a non-admin, whatever data it carries, is
    answered with a keyboard that holds one of the panel's four action
    buttons; and /start shows the panel's entry button exactly to
    admins. *)
Theorem admin_panel_is_shown_to_admins_only
    (admins : list Z) (w : world) (db : DB) :
  (forall message, from_user message ∉ admins ->
     (run (admin_command admins message) w db).2 =
     {| store := db;
        trace := [ReplyText (chat message) "❌ You are not an admin." []] |}) /\
  (forall query data,
     data ∈ ["admin_list_users"; "admin_ban"; "admin_unban"; "admin_broadcast"] ->
     q_from_user query ∉ admins ->
     ~ offers data (trace (run (callback_handler admins query) w db).2)) /\
  (forall message,
     offers "admin" (trace (run (start admins message) w db).2) <->
     from_user message ∈ admins).
Proof.
  split; [|split].
  - intros message Hadmin. unfold run, admin_command, is_admin.
    rewrite bool_decide_eq_false_2 by done. cbn [negb].
    by rewrite reply_text_effect.
  - intros query data Hdata Hadmin. apply no_button_not_offered.
    apply (callback_handler_admin_buttons admins query data Hdata Hadmin
             w {| store := db; trace := [] |}). constructor.
  - intros message. unfold run, start, is_admin.
    unfold bind at 1. unfold modify at 1. cbn [store trace].
    rewrite reply_text_effect. cbn [trace app].
    destruct (decide (from_user message ∈ admins)) as [Hin|Hout].
    + rewrite !bool_decide_eq_true_2 by done. split; [done|]. intros _.
      eexists _, _, _, _. split; [apply list_elem_of_singleton; reflexivity|].
      repeat constructor.
    + rewrite !bool_decide_eq_false_2 by done. split; [|done].
      intros Hoffer. exfalso. revert Hoffer. apply no_button_not_offered.
      repeat constructor.
Qed.

Lemma unhandled_press (admins : list Z) (w : world) (db : DB)
    (query : CallbackQuery) :
  q_data query ∉ ["telegram_login"; "github_login"; "help"; "admin"; "about";
                  "create_repo"; "repo_public"; "repo_private"] ->
  run (callback_handler admins query) w db =
  (Ret tt, {| store := db; trace := [] |}).
Proof.
  intros Hdata. unfold run, callback_handler.
  repeat match goal with
         | |- context [String.eqb (q_data query) ?x] =>
             let H := fresh in
             destruct (String.eqb_spec (q_data query) x) as [H|H];
             [exfalso; apply Hdata; rewrite H; set_solver|]
         end.
  cbn [existsb].
  repeat match goal with
         | |- context [String.eqb (q_data query) ?x] =>
             let H := fresh in
             destruct (String.eqb_spec (q_data query) x) as [H|H];
             [exfalso; apply Hdata; rewrite H; set_solver|]
         end.
  reflexivity.
Qed.

Lemma offered_by_one_reply data chat text keyboard :
  offers data [ReplyText chat text keyboard] -> data ∈ keyboard.*2.
Proof.
  intros (? & ? & kb & label & Hin & Hbutton).
  apply list_elem_of_singleton in Hin. injection Hin as _ _ ->.
  apply list_elem_of_fmap. by exists (label, data).
Qed.

(** X16: buttons the bot shows but does not handle.  Every button of the
    admin panel (list users, ban, unban, broadcast, back) and both
    buttons of the two re-login questions (re-login, back) carry data for
    which the button handler has no case: pressing any of them makes no
    call, sends nothing and leaves the store as it is. *)
Theorem shown_buttons_without_a_handler
    (admins : list Z) (w0 : world) (db0 : DB) (message : Message)
    (data : string) :
  offers data (trace (run (send_admin_panel message) w0 db0).2) \/
  (exists s, session_of db0 (from_user message) = Some s /\ truthy s = true /\
     offers data (trace (run (handle_telegram_login_start message) w0 db0).2)) \/
  (exists t, token_of db0 (from_user message) = Some t /\ truthy t = true /\
     offers data (trace (run (handle_github_login_start message) w0 db0).2)) ->
  forall (w : world) (db : DB) (query : CallbackQuery),
    q_data query = data ->
    run (callback_handler admins query) w db =
    (Ret tt, {| store := db; trace := [] |}).
Proof.
  intros Hshown w db query Hdata. apply unhandled_press. rewrite Hdata.
  assert (Hin : data ∈ ["admin_list_users"; "admin_ban"; "admin_unban";
                        "admin_broadcast"; "start";
                        "telegram_relogin_confirm"; "github_relogin_confirm"]).
  { destruct Hshown as [H|[(s & Hs & Ht & H)|(t & Hs & Ht & H)]].
    - unfold run, send_admin_panel in H. rewrite reply_text_effect in H.
      apply offered_by_one_reply, list_elem_of_In in H.
      apply list_elem_of_In. cbn in *. tauto.
    - rewrite (telegram_login_start_run _ _ _ _ Hs), Ht in H.
      rewrite reply_text_effect in H.
      apply offered_by_one_reply, list_elem_of_In in H.
      apply list_elem_of_In. cbn in *. tauto.
    - rewrite (github_login_start_run _ _ _ _ Hs), Ht in H.
      rewrite reply_text_effect in H.
      apply offered_by_one_reply, list_elem_of_In in H.
      apply list_elem_of_In. cbn in *. tauto. }
  intros Hhandled.
  repeat (apply elem_of_cons in Hin as [->|Hin];
          [repeat (apply elem_of_cons in Hhandled as [Hhandled|Hhandled];
                   [discriminate|]); inversion Hhandled|]).
  inversion Hin.
Qed.

(** The ban button of the admin panel. *)
Lemma shown_buttons_without_a_handler_witness :
  run (callback_handler [42] (press "admin_ban")) obliging sample_db =
  (Ret tt, {| store := sample_db; trace := [] |}).
Proof.
  apply (shown_buttons_without_a_handler [42] obliging sample_db
           (says "/admin") "admin_ban"); [|reflexivity].
  left. exists 42, ("👤 **Admin Panel** 👤" +:+ nl +:+ "Choose an option:"),
    [("📊 List Users", "admin_list_users"); ("🚫 Ban User", "admin_ban");
     ("✅ Unban User", "admin_unban"); ("📢 Broadcast", "admin_broadcast");
     ("🔙 Back", "start")], "🚫 Ban User".
  split; [apply list_elem_of_singleton; reflexivity|].
  apply elem_of_cons. right. apply elem_of_cons. by left.
Defined.

(** ** Stored credentials, written and read back *)

(** X17: what [save_user_session] and [save_github_token] store for a
    user is what [get_user_session] and [get_github_token] return for
    that user next, whether or not something was stored before, and for
    every other user the getters return what they returned before. *)
Theorem saved_credentials_are_read_back
    (w : world) (db : DB) (u v : Z) (secret : string) :
  (run (save_user_session u secret ;; get_user_session u) w db).1
    = Ret (VStr secret) /\
  (run (save_github_token u secret ;; get_github_token u) w db).1
    = Ret (VStr secret) /\
  (v <> u ->
   (run (save_user_session u secret ;; get_user_session v) w db).1
     = (run (get_user_session v) w db).1 /\
   (run (save_github_token u secret ;; get_github_token v) w db).1
     = (run (get_github_token v) w db).1).
Proof.
  unfold run, save_user_session, save_github_token.
  unfold bind, modify. cbn [store trace].
  rewrite !get_user_session_run, !get_github_token_run. cbn [fst store].
  unfold session_of, token_of.
  cbn [on_sessions on_github_tokens sessions_collection
       github_tokens_collection].
  split; [|split; [|intros Hv; split]].
  - pose proof (update_one_set_upsert_lookup u "string_session" (VStr secret)
                  (sessions_collection db)) as H.
    destruct (update_one_set _ _ _ _ !! u); cbn in H; [by rewrite H|done].
  - pose proof (update_one_set_upsert_lookup u "token" (VStr secret)
                  (github_tokens_collection db)) as H.
    destruct (update_one_set _ _ _ _ !! u); cbn in H; [by rewrite H|done].
  - by rewrite update_one_set_other.
  - by rewrite update_one_set_other.
Qed.

(** ** /start *)

Lemma start_store (admins : list Z) (w : world) (db : DB) (message : Message) :
  store (run (start admins message) w db).2 =
  on_users (update_one_set (from_user message)
              [("user_id", VInt (from_user message))] true) db.
Proof.
  unfold run, start. unfold bind at 1. unfold modify at 1. cbn [store trace].
  by rewrite reply_text_effect.
Qed.

(** X18: /start registers the sender without disturbing a flow in
    progress: afterwards the sender has a document that carries the
    [user_id], and every other field of it (the login step, the phone
    number, the draft) is what it was before. *)
Theorem start_registers_and_keeps_the_flow
    (admins : list Z) (w : world) (db : DB) (message : Message) :
  let u := from_user message in
  let r := run (start admins message) w db in
  field (store r.2) u "user_id" = Some (VInt u) /\
  forall k, k <> "user_id" -> field (store r.2) u k = field db u k.
Proof.
  intros u r. subst u r. rewrite start_store.
  unfold field, on_users. cbn [users_collection].
  split; [apply update_one_set_upsert_lookup|].
  intros k Hk. unfold update_one_set.
  destruct (users_collection db !! from_user message) as [d|] eqn:Hd;
    rewrite lookup_insert_eq; cbn; by simplify_map_eq.
Qed.

End BotMore.

Module RelayMore.
Import Relay Sample RelayProps.

(** ** /login *)

(** X19: /login changes the store only when the word after the command
    is USER_PASSWORD: with no such word the usage line is the answer,
    with any other word "Incorrect password.", and in both cases the
    store is left as it is, so a banned user stays banned. *)
Theorem login_needs_the_password
    (USER_PASSWORD : string) (w : world) (db : DB) (message : Message) :
  let r := run (login USER_PASSWORD message) w db in
  ((length (command message) < 2)%nat ->
   r.2 = {| store := db;
            trace := [ReplyText (chat message) "Usage: /login <password>" []] |})
  /\
  (forall cmd given rest,
     command message = cmd :: given :: rest -> given <> USER_PASSWORD ->
     r.2 = {| store := db;
              trace := [ReplyText (chat message) "Incorrect password." []] |}).
Proof.
  intros r. subst r. unfold run, login. split.
  - intros Hshort. destruct (command message) as [|cmd [|given rest]];
      try (cbn in Hshort; lia); by rewrite reply_text_effect.
  - intros cmd given rest -> Hgiven.
    apply String.eqb_neq in Hgiven. rewrite Hgiven.
    by rewrite reply_text_effect.
Qed.

(** A banned user tries a wrong password. *)
Lemma login_needs_the_password_witness :
  let banned := store (run (ban_user 77) obliging relay_db).2 in
  store (run (login "userpass" (sends ["login"; "Userpass"])) obliging
           banned).2 = banned.
Proof.
  intros banned.
  pose proof (proj2 (login_needs_the_password "userpass" obliging banned
                       (sends ["login"; "Userpass"]))
                "login" "Userpass" [] eq_refl ltac:(discriminate)) as H.
  by rewrite H.
Defined.

(** ** Banning and unbanning *)

Lemma set_status_lookup (db : DB) u d x upsert :
  db !! u = Some d ->
  status (update_one_set u [("status", x)] upsert db) u = Some x.
Proof.
  intros Hd. unfold status. rewrite (update_one_set_lookup _ _ _ _ _ Hd).
  cbn. by simplify_map_eq.
Qed.

Lemma is_logged_in_status (db : DB) u :
  is_logged_in db u = bool_decide (status db u = Some (VStr "active")).
Proof. unfold is_logged_in, status. by destruct (db !! u). Qed.

(** X20: banning and unbanning act on known users only.  For a user with
    a document, a ban makes [is_logged_in] false and an unban after it
    makes it true again.  For a user with no document both do nothing
    (no document is created), so a ban issued before the user's first
    /login is lost: after that /login the user is logged in. *)
Theorem ban_and_unban
    (USER_PASSWORD : string) (w1 w2 w3 : world) (db : DB) (u : Z) :
  let banned := store (run (ban_user u) w1 db).2 in
  let unbanned := store (run (unban_user u) w2 banned).2 in
  (is_Some (db !! u) ->
   is_logged_in banned u = false /\ is_logged_in unbanned u = true) /\
  (db !! u = None ->
   banned = db /\ unbanned = db /\
   forall message cmd rest,
     from_user message = u ->
     command message = cmd :: USER_PASSWORD :: rest ->
     is_logged_in (store (run (login USER_PASSWORD message) w3 banned).2) u
     = true).
Proof.
  intros banned unbanned. subst banned unbanned.
  unfold run, ban_user, unban_user, modify. cbn [store snd]. split.
  - intros [d Hd]. rewrite !is_logged_in_status.
    pose proof (update_one_set_lookup u [("status", VStr "banned")] false
                  db d Hd) as Hbanned.
    rewrite (set_status_lookup _ _ _ _ _ Hbanned).
    rewrite (set_status_lookup _ _ _ _ _ Hd).
    by rewrite bool_decide_eq_false_2, bool_decide_eq_true_2.
  - intros Hnone.
    assert (Hnoop : forall x,
              update_one_set u [("status", x)] false db = db).
    { intros x. unfold update_one_set. by rewrite Hnone. }
    rewrite !Hnoop. split; [done|]. split; [done|].
    intros message cmd rest Huser Hcommand.
    unfold login. rewrite Hcommand, String.eqb_refl.
    unfold add_user, bind, modify. cbn [store trace].
    rewrite reply_text_effect. cbn [store]. rewrite Huser.
    rewrite is_logged_in_status. unfold status.
    rewrite update_one_set_upsert_lookup. by rewrite bool_decide_eq_true_2.
Qed.

(** User 77 is banned and unbanned. *)
Lemma ban_and_unban_witness :
  let banned := store (run (ban_user 77) obliging relay_db).2 in
  let unbanned := store (run (unban_user 77) obliging banned).2 in
  is_logged_in banned 77 = false /\ is_logged_in unbanned 77 = true.
Proof.
  exact (proj1 (ban_and_unban "userpass" obliging obliging obliging
                  relay_db 77)
           (ex_intro _ _ eq_refl)).
Defined.

(** ** /save *)

(** X21: /save is for logged-in users.  A user with no document, or with
    a status other than [active] (a banned user), is told to log in, and
    nothing else happens: no link is parsed and nothing is copied.  In
    particular, once an existing user has been banned, every /save of
    that user ends this way. *)
Theorem save_is_refused_unless_logged_in
    (urlparse_path : string -> answer) (fuel : nat) (w w0 : world) (db : DB)
    (message : Message) :
  let refused db :=
    (run (save_content urlparse_path (S fuel) message) w db).2 =
    {| store := db;
       trace := [ReplyText (chat message) "Please /login first." []] |} in
  (is_logged_in db (from_user message) = false -> refused db) /\
  (is_Some (db !! from_user message) ->
   refused (store (run (ban_user (from_user message)) w0 db).2)).
Proof.
  intros refused. subst refused. cbn beta.
  assert (Hrefused : forall db',
            is_logged_in db' (from_user message) = false ->
            (run (save_content urlparse_path (S fuel) message) w db').2 =
            {| store := db';
               trace := [ReplyText (chat message) "Please /login first." []] |}).
  { intros db' Hout. unfold run. cbn [save_content].
    rewrite bind_get_store. cbn [store]. rewrite Hout. cbn [negb].
    by rewrite reply_text_effect. }
  split; [apply Hrefused|].
  intros [d Hd]. apply Hrefused.
  unfold run, ban_user, modify. cbn [store snd].
  rewrite is_logged_in_status, (set_status_lookup _ _ _ _ _ Hd).
  by rewrite bool_decide_eq_false_2.
Qed.

(** User 77, banned, sends a link. *)
Lemma save_is_refused_witness :
  let banned := store (run (ban_user 77) obliging relay_db).2 in
  (run (save_content std_urlparse 1 (sends ["save"; "https://t.me/channel/12"]))
     obliging banned).2 =
  {| store := banned; trace := [ReplyText 77 "Please /login first." []] |}.
Proof.
  exact (proj2 (save_is_refused_unless_logged_in std_urlparse 0 obliging
                  obliging relay_db
                  (sends ["save"; "https://t.me/channel/12"]))
           (ex_intro _ _ eq_refl)).
Defined.



Lemma save_content_preserves (urlparse_path : string -> answer) (fuel : nat)
    (message : Message) :
  preserves eq (save_content urlparse_path fuel message).
Proof.
  induction fuel as [|fuel IH]; [apply preserves_out_of_fuel; apply _|].
  cbn [save_content]. unfold getindex, int_of. by_structure.
Qed.

(** X23: /save only reads the store: whatever the command, the link and
    the answers of the platform, and however much fuel the run is given,
    the store after the run is the store before it. *)
Theorem save_never_writes
    (urlparse_path : string -> answer) (fuel : nat) (w : world) (db : DB)
    (message : Message) :
  store (run (save_content urlparse_path fuel message) w db).2 = db.
Proof.
  symmetry. apply (preserves_run eq), save_content_preserves.
Qed.



End RelayMore.

Module ConsoleProps.
Import Relay Console Sample RelayProps RelayMore.

(** ** The admin web console *)

Lemma verify_admin_accepts (ADMIN_USERNAME ADMIN_PASSWORD : string)
    (credentials : HTTPBasicCredentials) :
  username credentials = ADMIN_USERNAME ->
  password credentials = ADMIN_PASSWORD ->
  verify_admin ADMIN_USERNAME ADMIN_PASSWORD credentials = inr ADMIN_USERNAME.
Proof.
  intros Hname Hpass. unfold verify_admin.
  by rewrite Hname, Hpass, !String.eqb_refl.
Qed.

(** X25: the console's guard.  Credentials that match both configured
    values let the request through under the given user name.  Any other
    credentials never produce the intended 401 response: the exception
    class is not imported, so the guard ends with a NameError on
    [HTTPException], and the ban and unban routes behind it do not run:
    the store is left as it is. *)
Theorem console_guard
    (ADMIN_USERNAME ADMIN_PASSWORD : string)
    (credentials : HTTPBasicCredentials) (w : world) (db : DB) (user_id : Z) :
  let guarded route :=
    run (depends_verify_admin ADMIN_USERNAME ADMIN_PASSWORD credentials route)
      w db in
  (username credentials = ADMIN_USERNAME ->
   password credentials = ADMIN_PASSWORD ->
   verify_admin ADMIN_USERNAME ADMIN_PASSWORD credentials
   = inr ADMIN_USERNAME) /\
  (username credentials <> ADMIN_USERNAME \/
   password credentials <> ADMIN_PASSWORD ->
   verify_admin ADMIN_USERNAME ADMIN_PASSWORD credentials
   = inl (NameError "HTTPException") /\
   guarded (ban_post user_id) =
     (Ret (inl (NameError "HTTPException")), {| store := db; trace := [] |}) /\
   guarded (unban_post user_id) =
     (Ret (inl (NameError "HTTPException")), {| store := db; trace := [] |})).
Proof.
  intros guarded. subst guarded. cbn beta. split.
  - apply verify_admin_accepts.
  - intros Hwrong.
    assert (Hguard : verify_admin ADMIN_USERNAME ADMIN_PASSWORD credentials
                     = inl (NameError "HTTPException")).
    { unfold verify_admin.
      destruct Hwrong as [H|H]; apply String.eqb_neq in H; rewrite H;
        [done|]. by rewrite orb_true_r. }
    split; [done|]. unfold run, depends_verify_admin. by rewrite Hguard.
Qed.

(** The right user name with a wrong password. *)
Lemma console_guard_witness :
  run (depends_verify_admin "admin" "adminpass"
         {| username := "admin"; password := "guess" |} (ban_post 77))
    obliging relay_db =
  (Ret (inl (NameError "HTTPException")),
   {| store := relay_db; trace := [] |}).
Proof.
  pose proof (console_guard "admin" "adminpass"
                {| username := "admin"; password := "guess" |}
                obliging relay_db 77) as [_ H].
  destruct H as (_ & H & _); [right; discriminate|].
  cbv beta zeta in H. exact H.
Defined.

Lemma guarded_post_run (ADMIN_USERNAME ADMIN_PASSWORD : string)
    (credentials : HTTPBasicCredentials) (w : world) (db : DB) (user_id : Z)
    (new_status : string) (route : Z -> string -> M DB response) :
  username credentials = ADMIN_USERNAME ->
  password credentials = ADMIN_PASSWORD ->
  (forall name, route user_id name =
     (modify (update_one_set user_id [("status", VStr new_status)] false) ;;
      ret (RedirectResponse "/admin" HTTP_303_SEE_OTHER))) ->
  run (depends_verify_admin ADMIN_USERNAME ADMIN_PASSWORD credentials
         (route user_id)) w db =
  (Ret (inr (RedirectResponse "/admin" 303)),
   {| store := update_one_set user_id [("status", VStr new_status)] false db;
      trace := [] |}).
Proof.
  intros Hname Hpass Hroute. unfold run, depends_verify_admin.
  rewrite (verify_admin_accepts _ _ _ Hname Hpass), Hroute. reflexivity.
Qed.

(** X26: a ban from the console reaches the bot.  An authorised POST to
    /admin/ban for a user who has a document answers with a redirect to
    /admin (303) and sets the status [banned]; the next /save of that
    user is refused; an authorised POST to /admin/unban then answers the
    same way and the user is logged in again. *)
Theorem console_ban_reaches_the_bot
    (ADMIN_USERNAME ADMIN_PASSWORD : string)
    (credentials : HTTPBasicCredentials) (urlparse_path : string -> answer)
    (fuel : nat) (w1 w2 w3 : world) (db : DB) (message : Message) :
  username credentials = ADMIN_USERNAME ->
  password credentials = ADMIN_PASSWORD ->
  is_Some (db !! from_user message) ->
  let guarded route w db :=
    run (depends_verify_admin ADMIN_USERNAME ADMIN_PASSWORD credentials route)
      w db in
  let banned := guarded (ban_post (from_user message)) w1 db in
  let unbanned := guarded (unban_post (from_user message)) w3 (store banned.2) in
  banned.1 = Ret (inr (RedirectResponse "/admin" 303)) /\
  status (store banned.2) (from_user message) = Some (VStr "banned") /\
  (run (save_content urlparse_path (S fuel) message) w2 (store banned.2)).2 =
    {| store := store banned.2;
       trace := [ReplyText (chat message) "Please /login first." []] |} /\
  unbanned.1 = Ret (inr (RedirectResponse "/admin" 303)) /\
  is_logged_in (store unbanned.2) (from_user message) = true.
Proof.
  intros Hname Hpass [d Hd] guarded banned unbanned.
  subst guarded banned unbanned. cbn beta.
  rewrite (guarded_post_run _ _ _ w1 db (from_user message) "banned" ban_post
             Hname Hpass) by reflexivity.
  cbn [fst snd store].
  rewrite (guarded_post_run _ _ _ w3 _ (from_user message) "active" unban_post
             Hname Hpass) by reflexivity.
  cbn [fst snd store].
  pose proof (update_one_set_lookup (from_user message)
                [("status", VStr "banned")] false db d Hd) as Hbanned.
  split; [done|]. split; [exact (set_status_lookup _ _ _ _ _ Hd)|].
  split.
  - unfold run. cbn [save_content]. rewrite bind_get_store. cbn [store].
    rewrite is_logged_in_status, (set_status_lookup _ _ _ _ _ Hd).
    rewrite bool_decide_eq_false_2 by done. cbn [negb].
    by rewrite reply_text_effect.
  - split; [done|].
    rewrite is_logged_in_status, (set_status_lookup _ _ _ _ _ Hbanned).
    by rewrite bool_decide_eq_true_2.
Qed.

(** User 77 is banned from the console and sends a link. *)
Lemma console_ban_witness :
  let banned :=
    run (depends_verify_admin "admin" "adminpass"
           {| username := "admin"; password := "adminpass" |} (ban_post 77))
      obliging relay_db in
  status (store banned.2) 77 = Some (VStr "banned") /\
  trace (run (save_content std_urlparse 1
                (sends ["save"; "https://t.me/channel/12"])) obliging
           (store banned.2)).2 =
  [ReplyText 77 "Please /login first." []].
Proof.
  pose proof (console_ban_reaches_the_bot "admin" "adminpass"
                {| username := "admin"; password := "adminpass" |}
                std_urlparse 0 obliging obliging obliging relay_db
                (sends ["save"; "https://t.me/channel/12"])
                eq_refl eq_refl (ex_intro _ _ eq_refl))
    as (_ & Hstatus & Hsave & _).
  cbv beta zeta in Hstatus, Hsave. cbv zeta. split; [exact Hstatus|].
  exact (f_equal trace Hsave).
Defined.

(** X27: the console's user list shows the stored documents and nothing
    else: a document is in the list handed to the template exactly when
    it is the document of some user in the store, and there are as many
    entries as users. *)
Theorem admin_panel_lists_the_store
    (name : string) (w : world) (db : DB) :
  exists users,
    run (admin_panel name) w db =
      (Ret (TemplateResponse "admin.html" users),
       {| store := db; trace := [] |}) /\
    length users = size db /\
    forall d, d ∈ users <-> exists u, db !! u = Some d.
Proof.
  exists (map_to_list db).*2. split; [reflexivity|]. split.
  - by rewrite length_fmap, length_map_to_list.
  - intros d. rewrite list_elem_of_fmap. split.
    + intros ([u d'] & -> & Hin). exists u. by apply elem_of_map_to_list.
    + intros [u Hu]. exists (u, d). split; [done|].
      by apply elem_of_map_to_list.
Qed.

End ConsoleProps.

Module ConfigProps.
Import BotConfig.

(** ** Decimal numerals *)

Lemma pretty_N_char_digit (x : N) :
  (x < 10)%N ->
  Py.isdigit (pretty_N_char x) = true /\
  Py.digit (pretty_N_char x) = Z.of_N x.
Proof.
  intros Hx.
  assert (x = 0 \/ x = 1 \/ x = 2 \/ x = 3 \/ x = 4 \/ x = 5 \/ x = 6 \/
          x = 7 \/ x = 8 \/ x = 9)%N as Hcases by lia.
  repeat (destruct Hcases as [->|Hcases]; [by split|]). by subst.
Qed.

Lemma digits_step acc b a l :
  Py.isdigit a = true ->
  Py.digits acc b (a :: l) = Py.digits (10 * acc + Py.digit a) true l.
Proof. intros Ha. cbn [Py.digits]. by rewrite Ha. Qed.

(** The numeral of a positive number, put in front of [s]: a non-empty
    run of digits that [digits] reads back as the number. *)
Lemma pretty_N_go_digits (x : N) :
  (0 < x)%N ->
  forall s, exists ds : list ascii,
    list_ascii_of_string (pretty_N_go x s)
      = (ds ++ list_ascii_of_string s)%list /\
    ds <> [] /\
    Forall (fun a => Py.isdigit a = true) ds /\
    forall acc b (rest : list ascii),
      Py.digits acc b (ds ++ rest)%list =
      Py.digits (acc * 10 ^ Z.of_nat (length ds) + Z.of_N x) true rest.
Proof.
  induction (N.lt_wf_0 x) as [x _ IH]. intros Hx s.
  rewrite pretty_N_go_step by done.
  destruct (pretty_N_char_digit (x `mod` 10)%N) as [Hdigit Hvalue];
    [by apply N.mod_lt|].
  pose proof (N.div_mod x 10 ltac:(done)) as Hdivmod.
  destruct (decide (x `div` 10 = 0)%N) as [Hsmall|Hbig].
  - rewrite Hsmall, pretty_N_go_0. exists [pretty_N_char (x `mod` 10)%N].
    split; [done|]. split; [done|]. split; [by constructor|].
    intros acc b rest. cbn [app length]. rewrite (digits_step _ _ _ _ Hdigit).
    f_equal. rewrite Hvalue. rewrite Hsmall in Hdivmod. lia.
  - destruct (IH (x `div` 10)%N) with
      (s := String (pretty_N_char (x `mod` 10)%N) s)
      as (ds & Hlist & Hne & Hall & Hread);
      [by apply N.div_lt|by apply N.neq_0_lt_0|].
    exists (ds ++ [pretty_N_char (x `mod` 10)%N])%list.
    split; [by rewrite Hlist, <- app_assoc|].
    split; [by destruct ds|]. split; [apply Forall_app; by repeat constructor|].
    intros acc b rest. rewrite <- app_assoc. cbn [app].
    rewrite Hread, (digits_step _ _ _ _ Hdigit). f_equal.
    rewrite Hvalue, length_app. cbn [length].
    rewrite Nat2Z.inj_add, Z.pow_add_r by lia.
    change (10 ^ Z.of_nat 1) with 10. lia.
Qed.

(** The numeral of an integer: an optional minus sign, then the digits
    of its absolute value. *)
Lemma pretty_Z_shape (z : Z) :
  exists ds : list ascii,
    list_ascii_of_string (pretty z)
      = (if (z <? 0)%Z then "-"%char :: ds else ds) /\
    ds <> [] /\
    Forall (fun a => Py.isdigit a = true) ds /\
    Py.digits 0 false ds = Some (Z.abs z).
Proof.
  assert (Hpos : forall p : positive, exists ds : list ascii,
             list_ascii_of_string (pretty (N.pos p)) = ds /\
             ds <> [] /\
             Forall (fun a => Py.isdigit a = true) ds /\
             Py.digits 0 false ds = Some (Z.pos p)).
  { intros p. unfold pretty, pretty_N.
    rewrite decide_False by done.
    destruct (pretty_N_go_digits (N.pos p) ltac:(done) EmptyString)
      as (ds & Hlist & Hne & Hall & Hread).
    exists ds. cbn [list_ascii_of_string] in Hlist.
    rewrite app_nil_r in Hlist. split; [done|]. split; [done|].
    split; [done|].
    specialize (Hread 0 false []). rewrite app_nil_r in Hread.
    rewrite Hread. cbn [Py.digits]. f_equal; lia. }
  destruct z as [|p|p].
  - exists ["0"%char]. by repeat split; try constructor.
  - destruct (Hpos p) as (ds & Hlist & Hrest). by exists ds.
  - destruct (Hpos p) as (ds & Hlist & Hrest). exists ds.
    split; [|done].
    change (list_ascii_of_string (pretty (Z.neg p)))
      with ("-"%char :: list_ascii_of_string (pretty (N.pos p))).
    by rewrite Hlist.
Qed.

Lemma lstrip_by_head p a (l : list ascii) :
  p a = false -> Py.lstrip_by p (a :: l) = a :: l.
Proof. intros Ha. cbn. by rewrite Ha. Qed.

(** Stripping leaves alone a text none of whose characters is stripped. *)
Lemma strip_by_nothing p (s : string) :
  Forall (fun a => p a = false) (list_ascii_of_string s) ->
  Py.strip_by p s = s.
Proof.
  intros Hall. unfold Py.strip_by.
  assert (Hl : forall l : list ascii,
             Forall (fun a => p a = false) l -> Py.lstrip_by p l = l).
  { intros [|a l] H; [done|]. apply lstrip_by_head. by inversion H. }
  rewrite (Hl _ Hall), (Hl (rev _)) by (by apply Forall_rev).
  by rewrite rev_involutive, string_of_list_ascii_of_string.
Qed.

Lemma digit_is_plain a :
  Py.isdigit a = true ->
  Py.isspace a = false /\ Ascii.eqb a "-" = false /\ Ascii.eqb a "+" = false
  /\ Ascii.eqb a "," = false.
Proof.
  unfold Py.isdigit, Py.isspace, Py.code.
  destruct a as [[] [] [] [] [] [] [] []]; cbn; intros; try done.
Qed.

(** [int] reads a numeral back. *)
Lemma int_pretty (z : Z) : Py.int (pretty z) = Some z.
Proof.
  destruct (pretty_Z_shape z) as (ds & Hlist & Hne & Hall & Hread).
  unfold Py.int, Py.strip. rewrite strip_by_nothing.
  2: { rewrite Hlist.
       assert (Forall (fun a => Py.isspace a = false) ds) as Hds.
       { eapply Forall_impl; [exact Hall|]. intros a Ha.
         by apply digit_is_plain. }
       destruct (z <? 0)%Z; [by constructor|done]. }
  rewrite Hlist. destruct (z <? 0)%Z eqn:Hsign.
  - cbn. rewrite Hread. cbn. f_equal; lia.
  - destruct ds as [|a ds]; [done|].
    apply Forall_cons in Hall as [Ha _].
    destruct (digit_is_plain a Ha) as (_ & -> & -> & _).
    rewrite Hread. f_equal; lia.
Qed.

Lemma pretty_Z_plain (z : Z) :
  pretty z <> EmptyString /\
  Forall (fun a => Ascii.eqb a "," = false) (list_ascii_of_string (pretty z)).
Proof.
  destruct (pretty_Z_shape z) as (ds & Hlist & Hne & Hall & _).
  assert (Forall (fun a => Ascii.eqb a "," = false) ds) as Hds.
  { eapply Forall_impl; [exact Hall|]. intros a Ha. by apply digit_is_plain. }
  split.
  - intros Hempty. rewrite Hempty in Hlist. cbn in Hlist.
    destruct (z <? 0)%Z; [done|]. by subst.
  - rewrite Hlist. destruct (z <? 0)%Z; [by constructor|done].
Qed.

(** ** Splitting at the commas *)

Lemma list_ascii_of_string_app (s1 s2 : string) :
  list_ascii_of_string (s1 +:+ s2)
  = (list_ascii_of_string s1 ++ list_ascii_of_string s2)%list.
Proof.
  induction s1 as [|a s1 IH]; [done|].
  change (String a s1 +:+ s2) with (String a (s1 +:+ s2)).
  cbn [list_ascii_of_string app]. by rewrite IH.
Qed.

Lemma split_from_run sep (l cur rest : list ascii) :
  Forall (fun a => Ascii.eqb a sep = false) l ->
  Py.split_from sep cur (l ++ rest)%list
  = Py.split_from sep (rev l ++ cur)%list rest.
Proof.
  intros Hl. revert cur. induction Hl as [|a l Ha _ IH]; intros cur; [done|].
  cbn [app Py.split_from rev]. rewrite Ha, IH. by rewrite <- app_assoc.
Qed.

(** Joining comma-free texts with commas and splitting at the commas
    gives the texts back. *)
Lemma split_concat (items : list string) :
  items <> [] ->
  Forall (fun item =>
            Forall (fun a => Ascii.eqb a "," = false)
              (list_ascii_of_string item)) items ->
  Py.split "," (String.concat "," items) = items.
Proof.
  intros Hne Hall. unfold Py.split.
  induction Hall as [|x xs Hx Hxs IH]; [done|]. clear Hne.
  destruct xs as [|y ys].
  - cbn [String.concat].
    rewrite <- (app_nil_r (list_ascii_of_string x)), split_from_run by done.
    cbn [Py.split_from]. rewrite app_nil_r, rev_involutive.
    by rewrite string_of_list_ascii_of_string.
  - change (String.concat "," (x :: y :: ys))
      with (x +:+ "," +:+ String.concat "," (y :: ys)).
    rewrite !list_ascii_of_string_app, split_from_run by done.
    cbn [list_ascii_of_string app Py.split_from]. rewrite Ascii.eqb_refl.
    rewrite app_nil_r, rev_involutive, string_of_list_ascii_of_string.
    f_equal. by apply IH.
Qed.

(** ** The list of admins *)

Lemma read_entries (entries : list (option Z)) :
  mapM Py.int
    (filter (fun admin_id => admin_id <> EmptyString)
       (from_option pretty EmptyString <$> entries))
  = Some (omap id entries).
Proof.
  induction entries as [|[z|] entries IH]; [done| |].
  - cbn [fmap list_fmap from_option].
    rewrite filter_cons_True by apply pretty_Z_plain.
    cbn. rewrite int_pretty. cbn. cbn in IH. by rewrite IH.
  - cbn [fmap list_fmap from_option].
    by rewrite filter_cons_False by (intros H; by apply H).
Qed.

(** X28: the list of admins is read as documented.  A value of ADMIN_IDS
    made of decimal identifiers joined by commas gives exactly those
    identifiers, in order; empty entries (a doubled or trailing comma)
    are skipped; a variable that is not set gives no admin at all. *)
Theorem admin_ids_are_read_as_written (entries : list (option Z)) :
  ADMIN_IDS
    (Some (String.concat "," (from_option pretty EmptyString <$> entries)))
  = Some (omap id entries) /\
  ADMIN_IDS None = Some [].
Proof.
  split; [|reflexivity]. unfold ADMIN_IDS. cbn [default].
  destruct entries as [|e entries]; [reflexivity|].
  change (id ?s) with s.
  rewrite split_concat; [apply read_entries|done|].
  apply Forall_fmap, Forall_forall. intros [z|] _; cbn.
  - apply pretty_Z_plain.
  - constructor.
Qed.

End ConfigProps.
